(** * CXL scheduler: a shallow embedding of the sched_ext policy code

    The embedded sources are

    - [src/ebpf/cxl_pmu_minimal.bpf.c]  (module [Minimal]): the virtual-time
      scheduler ("cxl_minimal");
    - [src/ebpf/cxl_pmu.bpf.c]          (module [Pmu]): the DAMON-like access
      pattern tracker, the simulated CXL PMU telemetry, the priority table
      and the "cxl_pmu" struct_ops callbacks.

    Unsigned C integers are integers of [Z] with the wrap-around of every
    operation written out ([wrap64], [wrap32]); the cast [(s64)] is
    [to_s64].  The programs are BPF programs: an unsigned division by zero
    yields zero there, which is also what [Z.div] returns. *)

From Stdlib Require Import ZArith Lia Bool List String Ascii.
From stdpp Require Import base numbers option list gmap strings.

Local Open Scope Z_scope.

(** ** Machine integers *)

Module U64.

Definition wrap64 (z : Z) : Z := z mod 2 ^ 64.

Definition wrap32 (z : Z) : Z := z mod 2 ^ 32.

(** The cast [(s64) z] of a 64-bit pattern: two's complement. *)
Definition to_s64 (z : Z) : Z :=
  let u := wrap64 z in if u <? 2 ^ 63 then u else u - 2 ^ 64.

Definition is_u64 (z : Z) : Prop := 0 <= z < 2 ^ 64.

Definition is_u32 (z : Z) : Prop := 0 <= z < 2 ^ 32.

End U64.

Import U64.

(** ** The host side shared by both schedulers

    A dispatch queue (DSQ) of the host holds the tasks that were inserted
    and not yet moved to a CPU.  The two insertion helpers are host
    functions (sched_ext kfuncs); what the policy code relies on is recorded
    here: both put one entry for the task into the queue [dsq_id] and set the
    task's slice, and the vtime variant also stores the given virtual time
    as the task's [dsq_vtime].  The position of an entry inside a queue is
    the host's business; entries are kept in arrival order. *)

Module Host.

(** The fields of [struct task_struct] that the policy code reads or
    writes: [p->comm], [p->scx.dsq_vtime], [p->scx.slice], [p->scx.weight],
    [p->mm] (null or not), [p->se.vruntime], [p->se.sum_exec_runtime]. *)
Record task_struct : Type := mk_task {
  comm : string;
  dsq_vtime : Z;
  slice : Z;
  weight : Z;
  mm : bool;
  vruntime : Z;
  sum_exec_runtime : Z
}.

Definition set_dsq_vtime (v : Z) (p : task_struct) : task_struct :=
  mk_task (comm p) v (slice p) (weight p) (mm p) (vruntime p) (sum_exec_runtime p).

Definition set_slice (s : Z) (p : task_struct) : task_struct :=
  mk_task (comm p) (dsq_vtime p) s (weight p) (mm p) (vruntime p) (sum_exec_runtime p).

Definition set_weight (w : Z) (p : task_struct) : task_struct :=
  mk_task (comm p) (dsq_vtime p) (slice p) w (mm p) (vruntime p) (sum_exec_runtime p).

(** One queued task: the task (its address [ent_task]), the slice it was
    given, the virtual time it was inserted with ([None] for a FIFO
    insertion) and the enqueue flags. *)
Record dsq_entry : Type := mk_entry {
  ent_task : Z;
  ent_slice : Z;
  ent_vtime : option Z;
  ent_flags : Z
}.

Definition dsq_of (dsqs : gmap Z (list dsq_entry)) (dsq_id : Z) : list dsq_entry :=
  default [] (dsqs !! dsq_id).

(** [if (slice) p->scx.slice = slice; else p->scx.slice = p->scx.slice ?: 1;] *)
Definition insert_slice (s : Z) (p : task_struct) : task_struct :=
  if s =? 0 then (if slice p =? 0 then set_slice 1 p else p) else set_slice s p.

Definition scx_bpf_dsq_insert (dsqs : gmap Z (list dsq_entry)) (t : Z) (p : task_struct)
    (dsq_id s enq_flags : Z) : gmap Z (list dsq_entry) * task_struct :=
  (<[dsq_id := dsq_of dsqs dsq_id ++ [mk_entry t s None enq_flags]]> dsqs,
   insert_slice s p).

Definition scx_bpf_dsq_insert_vtime (dsqs : gmap Z (list dsq_entry)) (t : Z) (p : task_struct)
    (dsq_id s vtime enq_flags : Z) : gmap Z (list dsq_entry) * task_struct :=
  (<[dsq_id := dsq_of dsqs dsq_id ++ [mk_entry t s (Some vtime) enq_flags]]> dsqs,
   set_dsq_vtime vtime (insert_slice s p)).

(** [scx_bpf_create_dsq]: the queue exists and is empty afterwards; 0 is
    success. *)
Definition scx_bpf_create_dsq (dsqs : gmap Z (list dsq_entry)) (dsq_id : Z)
    : gmap Z (list dsq_entry) * Z :=
  (<[dsq_id := []]> dsqs, 0).

(** [scx_bpf_dsq_move_to_local]: the first task of the queue, if any, goes
    to the local queue of the CPU. *)
Definition scx_bpf_dsq_move_to_local (dsqs : gmap Z (list dsq_entry)) (dsq_id : Z)
    : gmap Z (list dsq_entry) * option dsq_entry :=
  match dsq_of dsqs dsq_id with
  | [] => (dsqs, None)
  | e :: rest => (<[dsq_id := rest]> dsqs, Some e)
  end.

(** [comm[i]] after [bpf_probe_read_kernel_str]: the i-th character of the
    name, NUL at its end. *)
Definition comm_at (p : task_struct) (i : nat) : ascii :=
  default Ascii.zero (String.get i (comm p)).

End Host.

Import Host.

(** The host's view of the CPUs, as [cxl_select_cpu] sees it: a task's
    affinity mask [p->cpus_ptr] is a set of CPU numbers, and the host keeps
    the set of idle CPUs.  [scx_bpf_test_and_clear_cpu_idle] reports whether
    the CPU was idle and claims it by clearing its idle flag. *)

Module Cpus.

Definition bpf_cpumask_test_cpu (cpu : Z) (cpus_ptr : gset Z) : bool :=
  bool_decide (cpu ∈ cpus_ptr).

Definition scx_bpf_test_and_clear_cpu_idle (idle : gset Z) (cpu : Z) : bool * gset Z :=
  if bool_decide (cpu ∈ idle) then (true, idle ∖ {[cpu]}) else (false, idle).

End Cpus.

Import Cpus.

(** ** src/ebpf/cxl_pmu_minimal.bpf.c *)

Module Minimal.

Definition FALLBACK_DSQ_ID : Z := 0.

Definition ENOMEM : Z := 12.

Record task_ctx : Type := mk_task_ctx {
  is_vectordb : bool;
  is_kworker : bool
}.

(** The scheduler's own state: [global_vtime], the task storage map
    [task_ctx_stor] (keyed by task) and the host's dispatch queues. *)
Record sched : Type := mk_sched {
  global_vtime : Z;
  task_ctx_stor : gmap Z task_ctx;
  dsqs : gmap Z (list dsq_entry)
}.

(** [cxl_init] creates the queue; [global_vtime] starts at 0. *)
Definition cxl_init : sched * Z :=
  let '(q, rc) := scx_bpf_create_dsq ∅ FALLBACK_DSQ_ID in
  (mk_sched 0 ∅ q, rc).

(** [bpf_task_storage_get(&task_ctx_stor, p, 0, flags)]: the task's entry;
    with [BPF_LOCAL_STORAGE_GET_F_CREATE] a missing entry is created
    zero-filled, unless the allocation fails ([alloc_ok = false]). *)
Definition bpf_task_storage_get (stor : gmap Z task_ctx) (t : Z) (create alloc_ok : bool)
    : option task_ctx * gmap Z task_ctx :=
  match stor !! t with
  | Some c => (Some c, stor)
  | None =>
      if create && alloc_ok
      then (Some (mk_task_ctx false false), <[t := mk_task_ctx false false]> stor)
      else (None, stor)
  end.

Definition vtime_before (a b : Z) : bool := to_s64 (a - b) <? 0.

Definition is_vectordb_task (p : task_struct) : bool :=
  Ascii.eqb (comm_at p 0) "v" || Ascii.eqb (comm_at p 0) "f" || Ascii.eqb (comm_at p 0) "p".

Definition is_kworker_task (p : task_struct) : bool :=
  Ascii.eqb (comm_at p 0) "k" && Ascii.eqb (comm_at p 1) "w".

(** Lines 87-91 of [cxl_enqueue]: the task type is read from the name while
    both flags are still false. *)
Definition init_task_type (tctx : task_ctx) (p : task_struct) : task_ctx :=
  if negb (is_vectordb tctx) && negb (is_kworker tctx)
  then mk_task_ctx (is_vectordb_task p) (is_kworker_task p)
  else tctx.

Section WithSlice.

(** [SCX_SLICE_DFL] comes from the host's headers, which are not part of
    the repository. *)
Variable SCX_SLICE_DFL : Z.

(** Lines 93-103 of [cxl_enqueue]: the clamp, the boost and the penalty. *)
Definition enqueue_vtime (g : Z) (tctx : task_ctx) (vtime : Z) : Z :=
  let slice := SCX_SLICE_DFL in
  let vtime := if vtime_before vtime (wrap64 (g - slice)) then wrap64 (g - slice) else vtime in
  let vtime := if is_vectordb tctx then wrap64 (vtime - slice) else vtime in
  let vtime := if is_kworker tctx then wrap64 (vtime + slice) else vtime in
  vtime.

Definition cxl_enqueue (st : sched) (t : Z) (p : task_struct) (enq_flags : Z)
    (alloc_ok : bool) : sched * task_struct :=
  let vtime := dsq_vtime p in
  let slice := SCX_SLICE_DFL in
  match bpf_task_storage_get (task_ctx_stor st) t true alloc_ok with
  | (None, stor) =>
      let '(q, p') := scx_bpf_dsq_insert (dsqs st) t p FALLBACK_DSQ_ID slice enq_flags in
      (mk_sched (global_vtime st) stor q, p')
  | (Some tctx, stor) =>
      let tctx := init_task_type tctx p in
      let vtime := enqueue_vtime (global_vtime st) tctx vtime in
      let '(q, p') :=
        scx_bpf_dsq_insert_vtime (dsqs st) t p FALLBACK_DSQ_ID slice vtime enq_flags in
      (mk_sched (global_vtime st) (<[t := tctx]> stor) q, p')
  end.

Definition cxl_dispatch (st : sched) : sched * option dsq_entry :=
  let '(q, e) := scx_bpf_dsq_move_to_local (dsqs st) FALLBACK_DSQ_ID in
  (mk_sched (global_vtime st) (task_ctx_stor st) q, e).

Definition cxl_running (st : sched) (p : task_struct) : sched :=
  if vtime_before (global_vtime st) (dsq_vtime p)
  then mk_sched (dsq_vtime p) (task_ctx_stor st) (dsqs st)
  else st.

(** The charge of [cxl_stopping]:
    [(SCX_SLICE_DFL - p->scx.slice) * 100 / p->scx.weight] in u64. *)
Definition stopping_charge (p : task_struct) : Z :=
  wrap64 (wrap64 (SCX_SLICE_DFL - slice p) * 100) / weight p.

Definition cxl_stopping (p : task_struct) (runnable : bool) : task_struct :=
  set_dsq_vtime (wrap64 (dsq_vtime p + stopping_charge p)) p.

Definition cxl_init_task (st : sched) (t : Z) (alloc_ok : bool) : sched * Z :=
  match bpf_task_storage_get (task_ctx_stor st) t true alloc_ok with
  | (None, stor) => (mk_sched (global_vtime st) stor (dsqs st), - ENOMEM)
  | (Some _, stor) =>
      (mk_sched (global_vtime st) (<[t := mk_task_ctx false false]> stor) (dsqs st), 0)
  end.

(** *** The engine driven by the host

    The host owns the tasks and calls the engine at its trigger points.
    While a task runs the host lowers its remaining slice, and it may change
    its weight ([ev_host_account]); the engine never sees a task the host
    does not know. *)

Record system : Type := mk_system {
  sys_sched : sched;
  sys_tasks : gmap Z task_struct
}.

Inductive event : Type :=
| ev_init_task (t : Z) (alloc_ok : bool)
| ev_enqueue (t : Z) (enq_flags : Z) (alloc_ok : bool)
| ev_running (t : Z)
| ev_stopping (t : Z) (runnable : bool)
| ev_host_account (t : Z) (new_slice new_weight : Z).

Definition event_task (e : event) : Z :=
  match e with
  | ev_init_task t _ | ev_enqueue t _ _ | ev_running t | ev_stopping t _
  | ev_host_account t _ _ => t
  end.

Definition step (s : system) (e : event) : system :=
  match sys_tasks s !! event_task e with
  | None => s
  | Some p =>
      match e with
      | ev_init_task t alloc_ok =>
          mk_system (fst (cxl_init_task (sys_sched s) t alloc_ok)) (sys_tasks s)
      | ev_enqueue t enq_flags alloc_ok =>
          let '(st, p') := cxl_enqueue (sys_sched s) t p enq_flags alloc_ok in
          mk_system st (<[t := p']> (sys_tasks s))
      | ev_running t => mk_system (cxl_running (sys_sched s) p) (sys_tasks s)
      | ev_stopping t runnable =>
          mk_system (sys_sched s) (<[t := cxl_stopping p runnable]> (sys_tasks s))
      | ev_host_account t new_slice new_weight =>
          mk_system (sys_sched s)
            (<[t := set_weight (wrap32 new_weight) (set_slice (wrap64 new_slice) p)]>
               (sys_tasks s))
      end
  end.

Definition run (s : system) (es : list event) : system := fold_left step es s.

(** A sequence of run-start events alone. *)
Definition run_starts (st : sched) (ps : list task_struct) : sched :=
  fold_left cxl_running ps st.

End WithSlice.

(** *** Vocabulary of the statements about virtual time *)

(** [a] is at or before [b] in the order the code compares virtual times
    with. *)
Definition vtime_le (a b : Z) : Prop := vtime_before a b = true \/ a = b.

(** The larger of two virtual times in that order. *)
Definition vtime_max (a b : Z) : Z := if vtime_before a b then b else a.

(** The signed distance from [a] to [b], measured as the code measures
    differences of virtual times. *)
Definition vtime_delta (a b : Z) : Z := to_s64 (b - a).

(** The task's clock [v] is within [2^62] ticks of the global clock [g]:
    no wrap-around separates them. *)
Definition near (g v : Z) : Prop := - 2 ^ 62 < to_s64 (v - g) < 2 ^ 62.

(** The integer fields of a task hold values of their C types. *)
Definition wf_task (p : task_struct) : Prop :=
  is_u64 (dsq_vtime p) /\ is_u64 (slice p) /\ is_u32 (weight p).

Definition wf_sys (s : system) : Prop :=
  is_u64 (global_vtime (sys_sched s))
  /\ map_Forall (fun _ p => wf_task p) (sys_tasks s).

(** The event is an enqueue of task [t] on which the VectorDB boost was
    applied: the context of [t] in the state after the event says so. *)
Definition boosted_enqueue (e : event) (t : Z) (after : system) : Prop :=
  exists (enq_flags : Z) (alloc_ok : bool) (c : task_ctx),
    e = ev_enqueue t enq_flags alloc_ok
    /\ task_ctx_stor (sys_sched after) !! t = Some c
    /\ is_vectordb c = true.

(** [cxl_select_cpu]: the lookup does not create the context; [a && b]
    evaluates [b], the call that claims the CPU, only when [a] holds.
    Returns the CPU and the host's idle set. *)
Definition cxl_select_cpu (st : sched) (t : Z) (cpus_ptr : gset Z)
    (prev_cpu wake_flags : Z) (idle : gset Z) : Z * gset Z :=
  match fst (bpf_task_storage_get (task_ctx_stor st) t false false) with
  | None => (prev_cpu, idle)
  | Some tctx =>
      if is_vectordb tctx then
        let '(claimed0, idle) :=
          if bpf_cpumask_test_cpu 0 cpus_ptr
          then scx_bpf_test_and_clear_cpu_idle idle 0 else (false, idle) in
        if claimed0 then (0, idle)
        else
          let '(claimed1, idle) :=
            if bpf_cpumask_test_cpu 1 cpus_ptr
            then scx_bpf_test_and_clear_cpu_idle idle 1 else (false, idle) in
          if claimed1 then (1, idle) else (prev_cpu, idle)
      else (prev_cpu, idle)
  end.


(** No stored context carries both task types. *)
Definition one_type (c : task_ctx) : Prop := is_vectordb c && is_kworker c = false.

End Minimal.

(** ** src/ebpf/cxl_pmu.bpf.c *)

Module Pmu.

Definition MAX_CPUS : Z := 1024.
Definition MAX_TASKS : Z := 8192.
Definition MOE_VECTORDB_THRESHOLD : Z := 80.
Definition KWORKER_PROMOTION_THRESHOLD : Z := 70.
Definition BANDWIDTH_THRESHOLD : Z := 70.
Definition FALLBACK_DSQ_ID : Z := 0.
Definition READ_INTENSIVE_DSQ_ID : Z := 1.
Definition WRITE_INTENSIVE_DSQ_ID : Z := 2.

Inductive task_type : Type :=
| TASK_TYPE_UNKNOWN
| TASK_TYPE_MOE_VECTORDB
| TASK_TYPE_KWORKER
| TASK_TYPE_REGULAR
| TASK_TYPE_LATENCY_SENSITIVE
| TASK_TYPE_READ_INTENSIVE
| TASK_TYPE_WRITE_INTENSIVE
| TASK_TYPE_BANDWIDTH_TEST.

Inductive io_pattern : Type :=
| IO_PATTERN_UNKNOWN
| IO_PATTERN_READ_HEAVY
| IO_PATTERN_WRITE_HEAVY
| IO_PATTERN_MIXED
| IO_PATTERN_SEQUENTIAL
| IO_PATTERN_RANDOM.

Definition io_pattern_eqb (a b : io_pattern) : bool :=
  match a, b with
  | IO_PATTERN_UNKNOWN, IO_PATTERN_UNKNOWN
  | IO_PATTERN_READ_HEAVY, IO_PATTERN_READ_HEAVY
  | IO_PATTERN_WRITE_HEAVY, IO_PATTERN_WRITE_HEAVY
  | IO_PATTERN_MIXED, IO_PATTERN_MIXED
  | IO_PATTERN_SEQUENTIAL, IO_PATTERN_SEQUENTIAL
  | IO_PATTERN_RANDOM, IO_PATTERN_RANDOM => true
  | _, _ => false
  end.

(** [struct memory_access_pattern]; the field [io_pattern] of the source
    is [pat_io] here, the enum keeps the name. *)
Record memory_access_pattern : Type := mk_pattern {
  nr_accesses : Z;
  avg_access_size : Z;
  total_access_time : Z;
  last_access_time : Z;
  hot_regions : Z;
  cold_regions : Z;
  locality_score : Z;
  working_set_size : Z;
  read_bytes : Z;
  write_bytes : Z;
  pat_io : io_pattern
}.

Definition set_nr_accesses (v : Z) (m : memory_access_pattern) :=
  mk_pattern v (avg_access_size m) (total_access_time m) (last_access_time m)
    (hot_regions m) (cold_regions m) (locality_score m) (working_set_size m)
    (read_bytes m) (write_bytes m) (pat_io m).

Definition set_total_access_time (v : Z) (m : memory_access_pattern) :=
  mk_pattern (nr_accesses m) (avg_access_size m) v (last_access_time m)
    (hot_regions m) (cold_regions m) (locality_score m) (working_set_size m)
    (read_bytes m) (write_bytes m) (pat_io m).

Definition set_last_access_time (v : Z) (m : memory_access_pattern) :=
  mk_pattern (nr_accesses m) (avg_access_size m) (total_access_time m) v
    (hot_regions m) (cold_regions m) (locality_score m) (working_set_size m)
    (read_bytes m) (write_bytes m) (pat_io m).

Definition set_locality_score (v : Z) (m : memory_access_pattern) :=
  mk_pattern (nr_accesses m) (avg_access_size m) (total_access_time m) (last_access_time m)
    (hot_regions m) (cold_regions m) v (working_set_size m)
    (read_bytes m) (write_bytes m) (pat_io m).

Definition set_working_set_size (v : Z) (m : memory_access_pattern) :=
  mk_pattern (nr_accesses m) (avg_access_size m) (total_access_time m) (last_access_time m)
    (hot_regions m) (cold_regions m) (locality_score m) v
    (read_bytes m) (write_bytes m) (pat_io m).

Definition set_read_bytes (v : Z) (m : memory_access_pattern) :=
  mk_pattern (nr_accesses m) (avg_access_size m) (total_access_time m) (last_access_time m)
    (hot_regions m) (cold_regions m) (locality_score m) (working_set_size m)
    v (write_bytes m) (pat_io m).

Definition set_write_bytes (v : Z) (m : memory_access_pattern) :=
  mk_pattern (nr_accesses m) (avg_access_size m) (total_access_time m) (last_access_time m)
    (hot_regions m) (cold_regions m) (locality_score m) (working_set_size m)
    (read_bytes m) v (pat_io m).

Definition set_pat_io (v : io_pattern) (m : memory_access_pattern) :=
  mk_pattern (nr_accesses m) (avg_access_size m) (total_access_time m) (last_access_time m)
    (hot_regions m) (cold_regions m) (locality_score m) (working_set_size m)
    (read_bytes m) (write_bytes m) v.

Record cxl_pmu_metrics : Type := mk_metrics {
  memory_bandwidth : Z;
  cache_hit_rate : Z;
  memory_latency : Z;
  cxl_utilization : Z;
  read_bandwidth : Z;
  write_bandwidth : Z;
  last_update_time : Z
}.

(** [struct task_ctx]; the field [type] is [ctx_type] here. *)
Record task_ctx : Type := mk_task_ctx {
  ctx_type : task_type;
  mem_pattern : memory_access_pattern;
  priority_boost : Z;
  cpu_affinity_mask : Z;
  last_scheduled_time : Z;
  consecutive_migrations : Z;
  is_memory_intensive : bool;
  needs_promotion : bool;
  is_bandwidth_critical : bool;
  preferred_dsq : Z
}.

Definition set_priority_boost (v : Z) (c : task_ctx) : task_ctx :=
  mk_task_ctx (ctx_type c) (mem_pattern c) v (cpu_affinity_mask c) (last_scheduled_time c)
    (consecutive_migrations c) (is_memory_intensive c) (needs_promotion c)
    (is_bandwidth_critical c) (preferred_dsq c).

Record cpu_ctx : Type := mk_cpu_ctx {
  cxl_metrics : cxl_pmu_metrics;
  active_moe_tasks : Z;
  active_kworkers : Z;
  active_read_tasks : Z;
  active_write_tasks : Z;
  last_balance_time : Z;
  is_cxl_attached : bool;
  is_read_optimized : bool;
  is_write_optimized : bool
}.

(** [ptr && cond(ptr)] on a pointer that may be null. *)
Definition holds {A : Type} (ptr : option A) (cond : A -> bool) : bool :=
  match ptr with
  | Some x => cond x
  | None => false
  end.

(** The divisor of [classify_io_pattern]: [total_bytes]. *)
Definition total_bytes (pattern : memory_access_pattern) : Z :=
  wrap64 (read_bytes pattern + write_bytes pattern).

(** [u32 read_ratio = (pattern->read_bytes * 100) / total_bytes;] *)
Definition read_ratio (pattern : memory_access_pattern) : Z :=
  wrap32 (wrap64 (read_bytes pattern * 100) / total_bytes pattern).

Definition classify_io_pattern (pattern : option memory_access_pattern) : io_pattern :=
  match pattern with
  | None => IO_PATTERN_UNKNOWN
  | Some pat =>
      if (read_bytes pat =? 0) && (write_bytes pat =? 0) then IO_PATTERN_UNKNOWN
      else if 80 <? read_ratio pat then IO_PATTERN_READ_HEAVY
      else if read_ratio pat <? 20 then IO_PATTERN_WRITE_HEAVY
      else IO_PATTERN_MIXED
  end.

(** [bpf_map_update_elem(&damon_data, &pid, value, BPF_ANY)] on the hash
    map of at most [MAX_TASKS] entries: a new key is refused when the map is
    full, and the caller ignores the result. *)
Definition bpf_map_update_elem (damon_data : gmap Z memory_access_pattern) (pid : Z)
    (value : memory_access_pattern) : gmap Z memory_access_pattern :=
  match damon_data !! pid with
  | Some _ => <[pid := value]> damon_data
  | None =>
      if Z.of_nat (size damon_data) <? MAX_TASKS then <[pid := value]> damon_data
      else damon_data
  end.

(** [new_pattern = {0}] with the three assignments of lines 221-223. *)
Definition new_pattern (current_time : Z) : memory_access_pattern :=
  mk_pattern 0 0 0 current_time 0 0 50 0 0 0 IO_PATTERN_UNKNOWN.

(** Lines 237-255: the working-set estimate and the read/write estimate;
    returns the pattern and [exec_delta]. *)
Definition estimate_io (pattern : memory_access_pattern) (p : task_struct)
    : memory_access_pattern * Z :=
  if mm p then
    let pattern :=
      set_working_set_size (wrap32 ((vruntime p / 1000000) mod 65536)) pattern in
    if total_access_time pattern <? sum_exec_runtime p then
      let exec_delta := wrap64 (sum_exec_runtime p - total_access_time pattern) in
      let pattern :=
        if wrap64 (nr_accesses pattern * 1000) <? exec_delta
        then set_read_bytes (wrap64 (read_bytes pattern + exec_delta / 1000)) pattern
        else set_write_bytes (wrap64 (write_bytes pattern + exec_delta / 2000)) pattern in
      (set_total_access_time (sum_exec_runtime p) pattern, exec_delta)
    else (pattern, 0)
  else (pattern, 0).

(** Lines 262-268. *)
Definition adjust_locality (exec_delta : Z) (pattern : memory_access_pattern)
    : memory_access_pattern :=
  if wrap64 (nr_accesses pattern * 500) <? exec_delta
  then set_locality_score
         (if 10 <? locality_score pattern then wrap32 (locality_score pattern - 10) else 0)
         pattern
  else set_locality_score
         (if locality_score pattern <? 90 then wrap32 (locality_score pattern + 5) else 100)
         pattern.

(** Lines 271-274. *)
Definition boost_locality (pattern : memory_access_pattern) : memory_access_pattern :=
  if io_pattern_eqb (pat_io pattern) IO_PATTERN_READ_HEAVY
     || io_pattern_eqb (pat_io pattern) IO_PATTERN_WRITE_HEAVY
  then set_locality_score
         (if locality_score pattern <? 95 then wrap32 (locality_score pattern + 5) else 100)
         pattern
  else pattern.

(** The body of [if (time_delta > 0)], lines 232-274, on the entry the
    lookup returned. *)
Definition observe (pattern : memory_access_pattern) (p : task_struct) (current_time : Z)
    : memory_access_pattern :=
  let pattern := set_nr_accesses (wrap64 (nr_accesses pattern + 1)) pattern in
  let pattern := set_last_access_time current_time pattern in
  let '(pattern, exec_delta) := estimate_io pattern p in
  let pattern := set_pat_io (classify_io_pattern (Some pattern)) pattern in
  let pattern := adjust_locality exec_delta pattern in
  boost_locality pattern.

(** [current_time] is the result of [bpf_ktime_get_ns()]. *)
Definition update_damon_data (damon_data : gmap Z memory_access_pattern) (pid : Z)
    (p : task_struct) (current_time : Z) : gmap Z memory_access_pattern :=
  match damon_data !! pid with
  | None => bpf_map_update_elem damon_data pid (new_pattern current_time)
  | Some pattern =>
      let time_delta := wrap64 (current_time - last_access_time pattern) in
      if 0 <? time_delta
      then bpf_map_update_elem damon_data pid (observe pattern p current_time)
      else damon_data
  end.

(** One observation of a task by the tracker, and a sequence of them. *)
Record observation : Type := mk_obs {
  obs_pid : Z;
  obs_task : task_struct;
  obs_time : Z
}.

Definition observe_all (damon_data : gmap Z memory_access_pattern)
    (obs : list observation) : gmap Z memory_access_pattern :=
  fold_left (fun m o => update_damon_data m (obs_pid o) (obs_task o) (obs_time o))
    obs damon_data.

(** [bpf_map_lookup_elem(&cpu_contexts, &cpu_id)] on the array of
    [MAX_CPUS] slots. *)
Definition lookup_cpu_ctx (cpu_contexts : list cpu_ctx) (cpu_id : Z) : option cpu_ctx :=
  if (0 <=? cpu_id) && (cpu_id <? MAX_CPUS) then cpu_contexts !! Z.to_nat cpu_id else None.

(** Lines 291-320 on the slot the lookup returned. *)
Definition refresh_metrics (ctx : cpu_ctx) (current_time : Z) : cpu_ctx :=
  let time_factor := current_time / 1000000 in
  let memory_bandwidth := wrap64 (800 + time_factor mod 400) in
  let cache_hit_rate := wrap64 (85 + time_factor mod 15) in
  let memory_latency := wrap64 (100 + time_factor mod 100) in
  let cxl_utilization := wrap64 (60 + time_factor mod 40) in
  let read_bandwidth := wrap64 (memory_bandwidth * 60) / 100 in
  let write_bandwidth := wrap64 (memory_bandwidth * 40) / 100 in
  let '(read_bandwidth, write_bandwidth, read_opt, write_opt) :=
    if active_write_tasks ctx <? active_read_tasks ctx
    then (wrap64 (read_bandwidth + 100), write_bandwidth, true, false)
    else if active_read_tasks ctx <? active_write_tasks ctx
    then (read_bandwidth, wrap64 (write_bandwidth + 100), false, true)
    else (read_bandwidth, write_bandwidth, false, false) in
  mk_cpu_ctx
    (mk_metrics memory_bandwidth cache_hit_rate memory_latency cxl_utilization
       read_bandwidth write_bandwidth current_time)
    (active_moe_tasks ctx) (active_kworkers ctx) (active_read_tasks ctx)
    (active_write_tasks ctx) (last_balance_time ctx)
    (150 <? memory_latency) read_opt write_opt.

Definition update_cxl_pmu_metrics (cpu_contexts : list cpu_ctx) (cpu_id : Z)
    (current_time : Z) : list cpu_ctx :=
  match lookup_cpu_ctx cpu_contexts cpu_id with
  | None => cpu_contexts
  | Some ctx => <[Z.to_nat cpu_id := refresh_metrics ctx current_time]> cpu_contexts
  end.

(** The [switch (tctx->type)] of [calculate_task_priority], lines 329-401. *)
Definition type_adjusted_priority (tctx : task_ctx)
    (pattern : option memory_access_pattern) (metrics : option cxl_pmu_metrics) : Z :=
  let base_priority := 120 in
  match ctx_type tctx with
  | TASK_TYPE_MOE_VECTORDB =>
      let base_priority :=
        if holds pattern (fun pat => MOE_VECTORDB_THRESHOLD <? locality_score pat)
        then wrap32 (base_priority - 20) else base_priority in
      if holds metrics (fun m => 1000 <? memory_bandwidth m)
      then wrap32 (base_priority - 10) else base_priority
  | TASK_TYPE_READ_INTENSIVE =>
      let base_priority :=
        if holds metrics (fun m => BANDWIDTH_THRESHOLD <? read_bandwidth m)
        then wrap32 (base_priority - 15) else base_priority in
      if holds pattern (fun pat => io_pattern_eqb (pat_io pat) IO_PATTERN_READ_HEAVY)
      then wrap32 (base_priority - 10) else base_priority
  | TASK_TYPE_WRITE_INTENSIVE =>
      let base_priority :=
        if holds metrics (fun m => BANDWIDTH_THRESHOLD <? write_bandwidth m)
        then wrap32 (base_priority - 15) else base_priority in
      if holds pattern (fun pat => io_pattern_eqb (pat_io pat) IO_PATTERN_WRITE_HEAVY)
      then wrap32 (base_priority - 10) else base_priority
  | TASK_TYPE_BANDWIDTH_TEST =>
      let base_priority :=
        if is_bandwidth_critical tctx then wrap32 (base_priority - 30) else base_priority in
      match pattern with
      | Some pat =>
          if io_pattern_eqb (pat_io pat) IO_PATTERN_READ_HEAVY
             && holds metrics (fun m => 100 <? read_bandwidth m)
          then wrap32 (base_priority - 10)
          else if io_pattern_eqb (pat_io pat) IO_PATTERN_WRITE_HEAVY
                  && holds metrics (fun m => 100 <? write_bandwidth m)
          then wrap32 (base_priority - 10)
          else base_priority
      | None => base_priority
      end
  | TASK_TYPE_KWORKER =>
      let base_priority :=
        if needs_promotion tctx then wrap32 (base_priority - 15) else base_priority in
      if holds metrics (fun m => 90 <? cxl_utilization m)
      then wrap32 (base_priority + 10) else base_priority
  | TASK_TYPE_LATENCY_SENSITIVE => wrap32 (base_priority - 25)
  | TASK_TYPE_UNKNOWN | TASK_TYPE_REGULAR =>
      if holds pattern (fun pat => locality_score pat <? 30)
      then wrap32 (base_priority + 10) else base_priority
  end.

(** Lines 403-409: the temporary boost and its decay. *)
Definition apply_priority_boost (base_priority : Z) (tctx : task_ctx) : Z * task_ctx :=
  if 0 <? priority_boost tctx then
    (if priority_boost tctx <? base_priority
     then wrap32 (base_priority - priority_boost tctx) else 1,
     set_priority_boost
       (if 5 <? priority_boost tctx then wrap32 (priority_boost tctx - 5) else 0) tctx)
  else (base_priority, tctx).

Definition calculate_task_priority (tctx : task_ctx)
    (pattern : option memory_access_pattern) (metrics : option cxl_pmu_metrics)
    : Z * task_ctx :=
  apply_priority_boost (type_adjusted_priority tctx pattern metrics) tctx.

(** The struct_ops callbacks of "cxl_pmu". *)

Definition cxl_select_cpu (p : task_struct) (prev_cpu wake_flags : Z) : Z := -1.

(** The body of [cxl_enqueue] holds a comment and a commented-out call:
    nothing is executed. *)
Definition cxl_enqueue (dsqs : gmap Z (list dsq_entry)) (t : Z) (p : task_struct)
    (enq_flags : Z) : gmap Z (list dsq_entry) * task_struct :=
  (dsqs, p).

Definition cxl_dispatch (dsqs : gmap Z (list dsq_entry))
    : gmap Z (list dsq_entry) * option dsq_entry :=
  scx_bpf_dsq_move_to_local dsqs FALLBACK_DSQ_ID.

Definition cxl_init : gmap Z (list dsq_entry) * Z :=
  scx_bpf_create_dsq ∅ FALLBACK_DSQ_ID.

(** *** Vocabulary of the statements about the classification *)

(** The classification as the specification words it: ReadHeavy when the
    read share of the bytes exceeds 80%, WriteHeavy when it is below 20%,
    Mixed otherwise (shares compared exactly, as fractions). *)
Definition spec_io_pattern (r w : Z) : io_pattern :=
  if 80 * (r + w) <? 100 * r then IO_PATTERN_READ_HEAVY
  else if 100 * r <? 20 * (r + w) then IO_PATTERN_WRITE_HEAVY
  else IO_PATTERN_MIXED.

(** The classification by the truncated integer percentage
    [100 * r / (r + w)]: ReadHeavy from 81% on, WriteHeavy below 20%,
    Unknown without any byte. *)
Definition percent_io_pattern (r w : Z) : io_pattern :=
  if (r =? 0) && (w =? 0) then IO_PATTERN_UNKNOWN
  else if 81 * (r + w) <=? 100 * r then IO_PATTERN_READ_HEAVY
  else if 100 * r <? 20 * (r + w) then IO_PATTERN_WRITE_HEAVY
  else IO_PATTERN_MIXED.

(** What the tracker is handed is well-typed: pids are u32, times and
    runtimes u64. *)
Definition wf_obs (o : observation) : Prop :=
  is_u64 (obs_time o) /\ is_u64 (vruntime (obs_task o))
  /\ is_u64 (sum_exec_runtime (obs_task o)).

(** What the tracker keeps true of every entry of [damon_data]. *)
Definition tracked (pat : memory_access_pattern) : Prop :=
  0 <= read_bytes pat /\ 0 <= write_bytes pat
  /\ is_u64 (total_access_time pat)
  /\ read_bytes pat * 1000 + write_bytes pat * 2000 <= total_access_time pat
  /\ pat_io pat = classify_io_pattern (Some pat).

(** [calculate_task_priority] called [n] times in a row on the same
    pattern and telemetry: the context after the last call. *)
Fixpoint priority_calls (n : nat) (tctx : task_ctx)
    (pattern : option memory_access_pattern) (metrics : option cxl_pmu_metrics)
    : task_ctx :=
  match n with
  | O => tctx
  | S k => priority_calls k (snd (calculate_task_priority tctx pattern metrics))
             pattern metrics
  end.

(** A task without a memory descriptor, observed once per time unit: the
    calm observations of task 1 at the times 0, 1, ..., n-1. *)
Definition calm_task : task_struct := mk_task "worker" 0 0 100 false 0 0.

Definition calm_observations (n : nat) : list observation :=
  map (fun k => mk_obs 1 calm_task (Z.of_nat k)) (seq 0 n).

End Pmu.

(** ** Concrete runs and inputs used below *)

Module Samples.

(** The host's slice of 20 ms, in nanoseconds. *)
Definition slice_20ms : Z := 20000000.

(** A fresh VectorDB task on a freshly initialised scheduler: it is
    enqueued, starts running, and has 5 ms of its slice left. *)
Definition vector_system : Minimal.system :=
  Minimal.mk_system (fst Minimal.cxl_init) {[ 1 := mk_task "vector" 0 0 100 true 0 0 ]}.

Definition vector_events : list Minimal.event :=
  [Minimal.ev_enqueue 1 0 true; Minimal.ev_running 1;
   Minimal.ev_host_account 1 5000000 100].

Definition vector_task_running : task_struct :=
  mk_task "vector" 18446744073689551616 5000000 100 true 0 0.

(** A scheduler whose clock is at 50 ms and a VectorDB task far behind. *)
Definition sched_at_50ms : Minimal.sched := Minimal.mk_sched 50000000 ∅ ∅.

Definition vector_task_behind : task_struct := mk_task "vector" 100 0 100 true 0 0.

Definition task_at (v : Z) : task_struct := mk_task "worker" v 0 100 true 0 0.

(** A task with a memory descriptor whose runtime grows in bursts. *)
Definition busy_task (sum_exec : Z) : task_struct :=
  mk_task "reader" 0 0 100 true 3000000 sum_exec.

Definition busy_observations : list Pmu.observation :=
  [Pmu.mk_obs 7 (busy_task 0) 10; Pmu.mk_obs 7 (busy_task 900000) 20;
   Pmu.mk_obs 7 (busy_task 1100000) 30].

Definition busy_pattern : Pmu.memory_access_pattern :=
  Pmu.mk_pattern 2 0 1100000 30 0 0 40 3 1100 0 Pmu.IO_PATTERN_READ_HEAVY.

(** Eight calm observations of task 1, then a burst of 8000 ns counted as
    4 bytes written and a burst of 17000 ns counted as 17 bytes read. *)
Definition mixed_observations : list Pmu.observation :=
  Pmu.calm_observations 8
  ++ [Pmu.mk_obs 1 (mk_task "worker" 0 0 100 true 0 8000) 8;
      Pmu.mk_obs 1 (mk_task "worker" 0 0 100 true 0 25000) 9].

Definition calm_pattern : Pmu.memory_access_pattern :=
  Pmu.mk_pattern 2 0 0 2 0 0 60 0 0 0 Pmu.IO_PATTERN_UNKNOWN.

(** The scenario of the read-intensive task. *)
Definition reader_pattern : Pmu.memory_access_pattern :=
  Pmu.mk_pattern 1 0 0 0 0 0 55 0 900 100 Pmu.IO_PATTERN_READ_HEAVY.

Definition reader_ctx : Pmu.task_ctx :=
  Pmu.mk_task_ctx Pmu.TASK_TYPE_READ_INTENSIVE reader_pattern 0 0 0 0 false false false 1.

Definition reader_metrics : Pmu.cxl_pmu_metrics := Pmu.mk_metrics 1000 90 120 70 80 40 0.

(** A CPU with 5 active readers and 1 active writer. *)
Definition read_dominated_cpu : Pmu.cpu_ctx :=
  Pmu.mk_cpu_ctx (Pmu.mk_metrics 0 0 0 0 0 0 0) 0 0 5 1 0 false false false.

(** The tracker's map filled to its capacity: the pids 0 .. 8191. *)
Definition full_damon_data : gmap Z Pmu.memory_access_pattern :=
  list_to_map (map (fun k => (Z.of_nat k, Pmu.new_pattern 0)) (seq 0 (Z.to_nat 8192))).

(** The entry of task 7 after the first two of the [busy_observations]. *)
Definition busy_pattern_before : Pmu.memory_access_pattern :=
  Pmu.mk_pattern 1 0 900000 20 0 0 45 3 900 0 Pmu.IO_PATTERN_READ_HEAVY.

(** A scheduler that knows task 1 as a VectorDB task. *)
Definition sched_with_vector : Minimal.sched :=
  Minimal.mk_sched 0 {[ 1 := Minimal.mk_task_ctx true false ]} ∅.

(** Two tasks that each have 5 ms of the slice left, of weight 100 and 200. *)
Definition task_of_weight (w : Z) : task_struct := mk_task "worker" 0 5000000 w true 0 0.

(** A CPU with as many readers as writers, and a context with a pending
    boost of 12. *)
Definition balanced_cpu : Pmu.cpu_ctx :=
  Pmu.mk_cpu_ctx (Pmu.mk_metrics 0 0 0 0 0 0 0) 0 0 2 2 0 false false false.

Definition boosted_ctx : Pmu.task_ctx :=
  Pmu.mk_task_ctx Pmu.TASK_TYPE_READ_INTENSIVE reader_pattern 12 0 0 0 false false false 1.

End Samples.

(** * Properties *)

(** ** Arithmetic of the machine integers *)

Section U64Facts.

Lemma wrap64_range (z : Z) : 0 <= wrap64 z < 2 ^ 64.
Proof. unfold wrap64. apply Z.mod_pos_bound. lia. Qed.

Lemma wrap32_range (z : Z) : 0 <= wrap32 z < 2 ^ 32.
Proof. unfold wrap32. apply Z.mod_pos_bound. lia. Qed.

Lemma wrap64_small (z : Z) : 0 <= z < 2 ^ 64 -> wrap64 z = z.
Proof. intros H. unfold wrap64. apply Z.mod_small. exact H. Qed.

Lemma wrap32_small (z : Z) : 0 <= z < 2 ^ 32 -> wrap32 z = z.
Proof. intros H. unfold wrap32. apply Z.mod_small. exact H. Qed.

Lemma wrap64_idem (z : Z) : wrap64 (wrap64 z) = wrap64 z.
Proof. unfold wrap64. apply Z.mod_mod. lia. Qed.

Lemma wrap64_add_l (a b : Z) : wrap64 (wrap64 a + b) = wrap64 (a + b).
Proof. unfold wrap64. apply Zplus_mod_idemp_l. Qed.

Lemma wrap64_sub_l (a b : Z) : wrap64 (wrap64 a - b) = wrap64 (a - b).
Proof. unfold wrap64. apply Zminus_mod_idemp_l. Qed.

Lemma wrap64_shift (a k : Z) : wrap64 (a + k * 2 ^ 64) = wrap64 a.
Proof. unfold wrap64. apply Z_mod_plus_full. Qed.

Lemma to_s64_range (z : Z) : - 2 ^ 63 <= to_s64 z < 2 ^ 63.
Proof.
  unfold to_s64. pose proof (wrap64_range z) as H.
  destruct (wrap64 z <? 2 ^ 63) eqn:E; [apply Z.ltb_lt in E | apply Z.ltb_ge in E]; lia.
Qed.

Lemma to_s64_small (z : Z) : - 2 ^ 63 <= z < 2 ^ 63 -> to_s64 z = z.
Proof.
  intros H. unfold to_s64.
  destruct (Z_lt_le_dec z 0) as [Hneg | Hpos].
  - replace (wrap64 z) with (z + 2 ^ 64).
    + destruct (z + 2 ^ 64 <? 2 ^ 63) eqn:E;
        [apply Z.ltb_lt in E | apply Z.ltb_ge in E]; lia.
    + rewrite <- (wrap64_shift z 1), wrap64_small; lia.
  - rewrite wrap64_small by lia.
    destruct (z <? 2 ^ 63) eqn:E; [reflexivity | apply Z.ltb_ge in E; lia].
Qed.

Lemma to_s64_cong (a b : Z) : wrap64 a = wrap64 b -> to_s64 a = to_s64 b.
Proof. intros H. unfold to_s64. rewrite H. reflexivity. Qed.

(** A pattern whose residue is known has that residue as its signed value. *)
Lemma to_s64_eq (z d : Z) : - 2 ^ 63 <= d < 2 ^ 63 -> wrap64 z = wrap64 d -> to_s64 z = d.
Proof. intros Hd H. rewrite (to_s64_cong z d H). apply to_s64_small. exact Hd. Qed.

End U64Facts.

Ltac pow_consts :=
  change (2 ^ 64) with 18446744073709551616 in *;
  change (2 ^ 63) with 9223372036854775808 in *;
  change (2 ^ 62) with 4611686018427387904 in *;
  change (2 ^ 56) with 72057594037927936 in *;
  change (2 ^ 32) with 4294967296 in *.

(** ** The virtual-time scheduler *)

Section MinimalFacts.

Import Minimal.

Variable SCX_SLICE_DFL : Z.

(** Inside a window of [2^63] ticks the code's comparison is the
    comparison of the integers. *)
Lemma vtime_before_lt (a b : Z) :
  - 2 ^ 63 <= a - b < 2 ^ 63 -> vtime_before a b = (a <? b).
Proof.
  intros H. unfold vtime_before. rewrite to_s64_small by exact H.
  destruct (Z.ltb_spec (a - b) 0), (Z.ltb_spec a b); lia || reflexivity.
Qed.

Lemma vtime_before_irrefl (a : Z) : vtime_before a a = false.
Proof. unfold vtime_before. rewrite Z.sub_diag. reflexivity. Qed.

Lemma vtime_le_numeric (a b : Z) :
  - 2 ^ 63 <= a - b < 2 ^ 63 -> vtime_le a b <-> a <= b.
Proof.
  intros H. unfold vtime_le. rewrite vtime_before_lt by exact H.
  rewrite Z.ltb_lt. lia.
Qed.

Lemma cxl_running_global (st : sched) (p : task_struct) :
  global_vtime (cxl_running st p) = vtime_max (global_vtime st) (dsq_vtime p).
Proof.
  unfold cxl_running, vtime_max.
  destruct (vtime_before (global_vtime st) (dsq_vtime p)); reflexivity.
Qed.

Lemma vtime_max_numeric (a b : Z) :
  0 <= a < 2 ^ 63 -> 0 <= b < 2 ^ 63 -> vtime_max a b = Z.max a b.
Proof.
  intros Ha Hb. unfold vtime_max. rewrite vtime_before_lt by lia.
  destruct (Z.ltb_spec a b); lia.
Qed.

Lemma run_starts_app (st : sched) (ps1 ps2 : list task_struct) :
  run_starts st (ps1 ++ ps2) = run_starts (run_starts st ps1) ps2.
Proof. unfold run_starts. apply fold_left_app. Qed.

(** Below [2^63] a sequence of run-starts leaves the clock at the largest
    virtual time seen, the initial clock included. *)
Lemma run_starts_numeric (ps : list task_struct) :
  forall st : sched,
    0 <= global_vtime st < 2 ^ 63 ->
    Forall (fun p => 0 <= dsq_vtime p < 2 ^ 63) ps ->
    global_vtime st <= global_vtime (run_starts st ps) < 2 ^ 63
    /\ Forall (fun p => dsq_vtime p <= global_vtime (run_starts st ps)) ps.
Proof.
  induction ps as [| p ps IH]; intros st Hg Hps.
  - split; [simpl; lia | constructor].
  - inversion Hps as [| ? ? Hp Hps']; subst.
    assert (Hg' : global_vtime (cxl_running st p) = Z.max (global_vtime st) (dsq_vtime p)).
    { rewrite cxl_running_global. apply vtime_max_numeric; assumption. }
    destruct (IH (cxl_running st p)) as [Hmono Hall]; [rewrite Hg'; lia | exact Hps' |].
    change (run_starts st (p :: ps)) with (run_starts (cxl_running st p) ps).
    split; [lia |]. constructor; [lia | exact Hall].
Qed.

Lemma step_global (s : system) (e : event) :
  global_vtime (sys_sched (step SCX_SLICE_DFL s e)) = global_vtime (sys_sched s)
  \/ exists p, sys_tasks s !! event_task e = Some p
               /\ sys_sched (step SCX_SLICE_DFL s e) = cxl_running (sys_sched s) p.
Proof.
  unfold step. destruct (sys_tasks s !! event_task e) as [p |] eqn:Hp; [| left; reflexivity].
  destruct e as [t a | t f a | t | t r | t ns nw]; simpl.
  - left. unfold cxl_init_task.
    destruct (bpf_task_storage_get _ _ _ _) as [[c |] stor]; reflexivity.
  - left. unfold cxl_enqueue.
    destruct (bpf_task_storage_get _ _ _ _) as [[c |] stor]; reflexivity.
  - right. exists p. split; reflexivity.
  - left. reflexivity.
  - left. reflexivity.
Qed.

Lemma run_snoc (s : system) (es : list event) (e : event) :
  run SCX_SLICE_DFL s (es ++ [e]) = step SCX_SLICE_DFL (run SCX_SLICE_DFL s es) e.
Proof. unfold run. rewrite fold_left_app. reflexivity. Qed.

(** C3. At every run-start the global clock becomes the later of itself and
    the starting task's virtual time: it is not before that virtual time
    afterwards and it has not gone back, in the wrap-around order the code
    compares with; no event of the engine other than a run-start changes it,
    so it goes forward at every step of any sequence of events.  While the
    clock and the virtual times are below [2^63] the order is the order of
    the integers: the clock is the maximum, it never decreases along a
    sequence of run-starts, and it ends at or above the virtual time of every
    task that started. *)
Theorem global_clock_advances_forward
    (st : sched) (p : task_struct) (ps1 ps2 : list task_struct)
    (s : system) (es : list event) (e : event) :
  let g := global_vtime st in
  let g' := global_vtime (cxl_running st p) in
  (g' = vtime_max g (dsq_vtime p)
   /\ vtime_before g' (dsq_vtime p) = false
   /\ vtime_le g g')
  /\ vtime_le (global_vtime (sys_sched (run SCX_SLICE_DFL s es)))
              (global_vtime (sys_sched (run SCX_SLICE_DFL s (es ++ [e]))))
  /\ (0 <= g < 2 ^ 63 -> 0 <= dsq_vtime p < 2 ^ 63 ->
      g' = Z.max g (dsq_vtime p) /\ dsq_vtime p <= g' /\ g <= g')
  /\ (0 <= g < 2 ^ 63 ->
      Forall (fun q => 0 <= dsq_vtime q < 2 ^ 63) (ps1 ++ ps2) ->
      g <= global_vtime (run_starts st ps1)
      /\ global_vtime (run_starts st ps1) <= global_vtime (run_starts st (ps1 ++ ps2))
      /\ Forall (fun q => dsq_vtime q <= global_vtime (run_starts st (ps1 ++ ps2)))
                (ps1 ++ ps2)).
Proof.
  intros g g'.
  assert (Hstep : forall st0 p0,
            vtime_le (global_vtime st0) (global_vtime (cxl_running st0 p0))).
  { intros st0 p0. unfold cxl_running, vtime_le.
    destruct (vtime_before (global_vtime st0) (dsq_vtime p0)) eqn:E; simpl; auto. }
  split; [| split; [| split]].
  - subst g g'. split; [apply cxl_running_global |]. split; [| apply Hstep].
    unfold cxl_running.
    destruct (vtime_before (global_vtime st) (dsq_vtime p)) eqn:E; simpl.
    + apply vtime_before_irrefl.
    + exact E.
  - rewrite run_snoc.
    destruct (step_global (run SCX_SLICE_DFL s es) e) as [Heq | (q & _ & Heq)].
    + rewrite Heq. right. reflexivity.
    + rewrite Heq. apply Hstep.
  - intros Hg Hv. subst g g'. rewrite cxl_running_global.
    rewrite vtime_max_numeric by assumption. lia.
  - intros Hg Hall. subst g.
    apply Forall_app in Hall as Hboth. destruct Hboth as [H1 H2].
    destruct (run_starts_numeric ps1 st Hg H1) as [[Ha Hb] _].
    destruct (run_starts_numeric (ps1 ++ ps2) st Hg Hall) as [_ Hc].
    split; [exact Ha |]. split; [| exact Hc].
    rewrite run_starts_app.
    destruct (run_starts_numeric ps2 (run_starts st ps1)) as [[Hd _] _];
      [lia | exact H2 | exact Hd].
Qed.

Lemma insert_slice_vtime (s0 : Z) (p : task_struct) :
  dsq_vtime (insert_slice s0 p) = dsq_vtime p.
Proof.
  unfold insert_slice. destruct (s0 =? 0); [destruct (slice p =? 0) |]; reflexivity.
Qed.

(** The clamp of [cxl_enqueue] is the maximum in the code's order. *)
Lemma enqueue_vtime_eq (g : Z) (tctx : task_ctx) (cur : Z) :
  is_u64 cur ->
  enqueue_vtime SCX_SLICE_DFL g tctx cur
  = wrap64 (vtime_max cur (wrap64 (g - SCX_SLICE_DFL))
            - (if is_vectordb tctx then SCX_SLICE_DFL else 0)
            + (if is_kworker tctx then SCX_SLICE_DFL else 0)).
Proof.
  intros Hcur. unfold enqueue_vtime, vtime_max.
  assert (Hc : is_u64 (if vtime_before cur (wrap64 (g - SCX_SLICE_DFL))
                       then wrap64 (g - SCX_SLICE_DFL) else cur)).
  { destruct (vtime_before cur (wrap64 (g - SCX_SLICE_DFL)));
      [apply wrap64_range | exact Hcur]. }
  set (c := if vtime_before cur (wrap64 (g - SCX_SLICE_DFL))
            then wrap64 (g - SCX_SLICE_DFL) else cur) in *.
  destruct (is_vectordb tctx), (is_kworker tctx).
  - rewrite wrap64_add_l. reflexivity.
  - f_equal. lia.
  - f_equal. lia.
  - rewrite Z.sub_0_r, Z.add_0_r. symmetry. apply wrap64_small. exact Hc.
Qed.

(** Inside a window of [2^63] ticks that maximum is the maximum of the
    integers, [g - slice] taken before any wrap-around. *)
Lemma vtime_max_floor (g cur : Z) :
  is_u64 cur ->
  - 2 ^ 63 <= cur - (g - SCX_SLICE_DFL) < 2 ^ 63 ->
  vtime_max cur (wrap64 (g - SCX_SLICE_DFL)) = wrap64 (Z.max cur (g - SCX_SLICE_DFL)).
Proof.
  intros Hcur Hwin. unfold vtime_max, vtime_before.
  rewrite (to_s64_eq (cur - wrap64 (g - SCX_SLICE_DFL)) (cur - (g - SCX_SLICE_DFL)) Hwin).
  - destruct (Z.ltb_spec (cur - (g - SCX_SLICE_DFL)) 0).
    + rewrite Z.max_r by lia. reflexivity.
    + rewrite Z.max_l by lia. symmetry. apply wrap64_small. exact Hcur.
  - unfold wrap64. rewrite Zminus_mod_idemp_r. reflexivity.
Qed.

(** C4. Every enqueue appends one entry for the task to the fallback queue.
    Unless the task's context cannot be had (then the entry is a FIFO entry
    and no virtual time is involved), the entry is ordered by a virtual time
    [v], which is also stored as the task's virtual time, and [v] is the
    maximum of the task's current virtual time and [global_vtime - slice],
    minus one slice if the task is VectorDB-like and plus one slice if it is
    a kernel worker (in 64-bit arithmetic, the maximum taken in the order the
    code compares with).  While the current virtual time is within [2^63]
    ticks of [global_vtime - slice] the maximum is the maximum of the
    integers. *)
Theorem enqueue_vtime_is_clamped_then_shifted
    (st : sched) (t : Z) (p : task_struct) (enq_flags : Z) (alloc_ok : bool) :
  is_u64 (dsq_vtime p) ->
  let g := global_vtime st in
  let st' := fst (cxl_enqueue SCX_SLICE_DFL st t p enq_flags alloc_ok) in
  let p' := snd (cxl_enqueue SCX_SLICE_DFL st t p enq_flags alloc_ok) in
  exists e : dsq_entry,
    dsq_of (dsqs st') FALLBACK_DSQ_ID = dsq_of (dsqs st) FALLBACK_DSQ_ID ++ [e]
    /\ ent_task e = t
    /\ match fst (bpf_task_storage_get (task_ctx_stor st) t true alloc_ok) with
       | None => ent_vtime e = None /\ dsq_vtime p' = dsq_vtime p
       | Some tctx =>
           let tctx' := init_task_type tctx p in
           let bonus := if is_vectordb tctx' then SCX_SLICE_DFL else 0 in
           let penalty := if is_kworker tctx' then SCX_SLICE_DFL else 0 in
           exists v : Z,
             ent_vtime e = Some v
             /\ dsq_vtime p' = v
             /\ task_ctx_stor st' !! t = Some tctx'
             /\ v = wrap64 (vtime_max (dsq_vtime p) (wrap64 (g - SCX_SLICE_DFL))
                            - bonus + penalty)
             /\ (- 2 ^ 63 <= dsq_vtime p - (g - SCX_SLICE_DFL) < 2 ^ 63 ->
                 v = wrap64 (Z.max (dsq_vtime p) (g - SCX_SLICE_DFL) - bonus + penalty))
       end.
Proof.
  intros Hcur g st' p'. subst st' p'. unfold cxl_enqueue.
  destruct (bpf_task_storage_get (task_ctx_stor st) t true alloc_ok) as [[tctx |] stor] eqn:E;
    simpl.
  - exists (mk_entry t SCX_SLICE_DFL
              (Some (enqueue_vtime SCX_SLICE_DFL g (init_task_type tctx p) (dsq_vtime p)))
              enq_flags).
    split; [| split; [reflexivity |]].
    + unfold dsq_of at 1. rewrite lookup_insert_eq. reflexivity.
    + exists (enqueue_vtime SCX_SLICE_DFL g (init_task_type tctx p) (dsq_vtime p)).
      split; [reflexivity |]. split; [reflexivity |].
      split; [apply lookup_insert_eq |].
      split; [apply enqueue_vtime_eq; exact Hcur |].
      intros Hwin. rewrite enqueue_vtime_eq by exact Hcur.
      rewrite (vtime_max_floor g (dsq_vtime p) Hcur Hwin).
      set (bonus := if is_vectordb (init_task_type tctx p) then SCX_SLICE_DFL else 0).
      set (penalty := if is_kworker (init_task_type tctx p) then SCX_SLICE_DFL else 0).
      replace (wrap64 (Z.max (dsq_vtime p) (g - SCX_SLICE_DFL)) - bonus + penalty)
        with (wrap64 (Z.max (dsq_vtime p) (g - SCX_SLICE_DFL)) + (penalty - bonus)) by lia.
      rewrite wrap64_add_l. f_equal. lia.
  - exists (mk_entry t SCX_SLICE_DFL None enq_flags).
    split; [| split; [reflexivity |]].
    + unfold dsq_of at 1. rewrite lookup_insert_eq. reflexivity.
    + split; [reflexivity | apply insert_slice_vtime].
Qed.

Example task_types_by_name :
  is_vectordb_task (Samples.task_at 0) = false
  /\ is_vectordb_task Samples.vector_task_behind = true
  /\ is_kworker_task (mk_task "kworker/0:1" 0 0 100 false 0 0) = true
  /\ is_kworker_task (mk_task "k" 0 0 100 false 0 0) = false.
Proof. repeat split; reflexivity. Qed.

(** A VectorDB task at virtual time 100 under a clock at 50 ms: clamped to
    30 ms, boosted to 10 ms. *)
Example enqueue_behind_the_clock :
  dsq_vtime (snd (cxl_enqueue Samples.slice_20ms Samples.sched_at_50ms 1
                    Samples.vector_task_behind 0 true)) = 10000000.
Proof. vm_compute. reflexivity. Qed.

(** Every enqueue of the minimal scheduler puts exactly one entry for the
    task into exactly one queue, the fallback queue, and leaves every other
    queue as it was; when the context cannot be had the entry is a FIFO
    entry. *)
Lemma minimal_enqueue_exactly_one_queue
    (st : sched) (t : Z) (p : task_struct) (enq_flags : Z) (alloc_ok : bool) :
  let st' := fst (cxl_enqueue SCX_SLICE_DFL st t p enq_flags alloc_ok) in
  exists e : dsq_entry,
    ent_task e = t
    /\ dsqs st' = <[FALLBACK_DSQ_ID := dsq_of (dsqs st) FALLBACK_DSQ_ID ++ [e]]> (dsqs st)
    /\ (fst (bpf_task_storage_get (task_ctx_stor st) t true alloc_ok) = None ->
        e = mk_entry t SCX_SLICE_DFL None enq_flags).
Proof.
  intros st'. subst st'. unfold cxl_enqueue.
  destruct (bpf_task_storage_get (task_ctx_stor st) t true alloc_ok) as [[c |] stor] eqn:E;
    simpl.
  - eexists. split; [| split]; [| reflexivity | discriminate]. reflexivity.
  - eexists. split; [| split]; [| reflexivity | reflexivity]. reflexivity.
Qed.

Hypothesis slice_range : 0 < SCX_SLICE_DFL < 2 ^ 56.

Lemma div_bounds (x w : Z) : 0 <= x -> 0 <= w -> 0 <= x / w <= x.
Proof.
  intros Hx Hw. destruct (Z.eq_dec w 0) as [-> | Hne].
  - rewrite Z.div_0_r. lia.
  - split; [apply Z.div_pos; lia |].
    apply Z.div_le_upper_bound; [lia |]. nia.
Qed.

(** The charge of a task that used no more than the nominal slice is the
    exact quotient: nothing wraps. *)
Lemma stopping_charge_exact (p : task_struct) :
  wf_task p -> slice p <= SCX_SLICE_DFL ->
  stopping_charge SCX_SLICE_DFL p = (SCX_SLICE_DFL - slice p) * 100 / weight p
  /\ 0 <= stopping_charge SCX_SLICE_DFL p <= SCX_SLICE_DFL * 100.
Proof.
  intros (_ & Hs & Hw) Hle. unfold is_u64, is_u32 in *. unfold stopping_charge.
  assert (H56 : 2 ^ 56 * 100 < 2 ^ 64) by (vm_compute; reflexivity).
  assert (H64 : 2 ^ 56 < 2 ^ 64) by (vm_compute; reflexivity).
  rewrite (wrap64_small (SCX_SLICE_DFL - slice p)) by lia.
  rewrite wrap64_small by lia.
  split; [reflexivity |].
  pose proof (div_bounds ((SCX_SLICE_DFL - slice p) * 100) (weight p)). lia.
Qed.

Lemma delta_of_advance (old d : Z) :
  0 <= d < 2 ^ 63 -> vtime_delta old (wrap64 (old + d)) = d.
Proof.
  intros Hd. unfold vtime_delta. apply to_s64_eq; [lia |].
  rewrite wrap64_sub_l. f_equal. lia.
Qed.

(** The clamp alone never lowers a virtual time. *)
Lemma clamp_never_lowers (g cur : Z) :
  vtime_le cur (vtime_max cur (wrap64 (g - SCX_SLICE_DFL))).
Proof.
  unfold vtime_le, vtime_max.
  destruct (vtime_before cur (wrap64 (g - SCX_SLICE_DFL))) eqn:E; auto.
Qed.

(** What an enqueue does to a virtual time near the global clock. *)
Lemma enqueue_vtime_delta (g : Z) (tctx : task_ctx) (cur : Z) :
  is_u64 cur -> near g cur ->
  let d := vtime_delta cur (enqueue_vtime SCX_SLICE_DFL g tctx cur) in
  - SCX_SLICE_DFL <= d /\ (is_vectordb tctx = false -> 0 <= d).
Proof.
  intros Hcur Hnear d. subst d.
  rewrite enqueue_vtime_eq by exact Hcur.
  unfold near, is_u64 in *.
  pose proof slice_range as Hs.
  assert (H56 : 2 ^ 56 = 72057594037927936) by reflexivity. rewrite H56 in Hs.
  set (x := to_s64 (cur - g)) in *.
  assert (Hx : wrap64 (cur - g) = wrap64 x).
  { subst x. unfold to_s64. destruct (wrap64 (cur - g) <? 2 ^ 63).
    - rewrite wrap64_idem. reflexivity.
    - replace (wrap64 (cur - g) - 2 ^ 64) with (wrap64 (cur - g) + (-1) * 2 ^ 64) by lia.
      rewrite wrap64_shift, wrap64_idem. reflexivity. }
  assert (Hfloor : to_s64 (cur - wrap64 (g - SCX_SLICE_DFL)) = x + SCX_SLICE_DFL).
  { apply to_s64_eq; [change (2 ^ 62) with 4611686018427387904 in Hnear;
                      change (2 ^ 63) with 9223372036854775808; lia |].
    unfold wrap64. rewrite Zminus_mod_idemp_r.
    replace (cur - (g - SCX_SLICE_DFL)) with ((cur - g) + SCX_SLICE_DFL) by lia.
    rewrite <- Zplus_mod_idemp_l. fold (wrap64 (cur - g)). rewrite Hx.
    unfold wrap64. rewrite Zplus_mod_idemp_l. reflexivity. }
  set (b := if is_vectordb tctx then SCX_SLICE_DFL else 0).
  set (k := if is_kworker tctx then SCX_SLICE_DFL else 0).
  assert (Hb : 0 <= b <= SCX_SLICE_DFL) by (subst b; destruct (is_vectordb tctx); lia).
  assert (Hk : 0 <= k <= SCX_SLICE_DFL) by (subst k; destruct (is_kworker tctx); lia).
  assert (Hd : vtime_delta cur
                 (wrap64 (vtime_max cur (wrap64 (g - SCX_SLICE_DFL)) - b + k))
               = Z.max 0 (- (x + SCX_SLICE_DFL)) - b + k).
  { unfold vtime_delta. apply to_s64_eq.
    - change (2 ^ 62) with 4611686018427387904 in Hnear.
      change (2 ^ 63) with 9223372036854775808. lia.
    - rewrite wrap64_sub_l. unfold vtime_max, vtime_before. rewrite Hfloor.
      destruct (Z.ltb_spec (x + SCX_SLICE_DFL) 0).
      + rewrite Z.max_r by lia.
        replace (wrap64 (g - SCX_SLICE_DFL) - b + k - cur)
          with (wrap64 (g - SCX_SLICE_DFL) + (k - b - cur)) by lia.
        rewrite wrap64_add_l.
        replace (g - SCX_SLICE_DFL + (k - b - cur))
          with (0 - (cur - g) + (k - b - SCX_SLICE_DFL)) by lia.
        rewrite <- wrap64_add_l. unfold wrap64 at 2.
        rewrite <- Zminus_mod_idemp_r. fold (wrap64 (cur - g)). rewrite Hx.
        unfold wrap64 at 2. rewrite Zminus_mod_idemp_r. fold (wrap64 (0 - x)).
        rewrite wrap64_add_l. f_equal. lia.
      + rewrite Z.max_l by lia. f_equal. lia. }
  rewrite Hd. split; [lia |].
  intros Hv. subst b. rewrite Hv in *. lia.
Qed.

Lemma wf_insert_slice (s0 : Z) (p : task_struct) :
  is_u64 s0 -> wf_task p -> wf_task (insert_slice s0 p).
Proof.
  intros Hs (Hv & Hsl & Hw). unfold insert_slice, wf_task, is_u64, is_u32 in *.
  destruct (s0 =? 0); [destruct (slice p =? 0) |]; simpl; pow_consts; lia.
Qed.

Lemma wf_enqueue_vtime (g : Z) (tctx : task_ctx) (cur : Z) :
  is_u64 cur -> is_u64 (enqueue_vtime SCX_SLICE_DFL g tctx cur).
Proof. intros H. rewrite enqueue_vtime_eq by exact H. apply wrap64_range. Qed.

Lemma wf_step (s : system) (e : event) : wf_sys s -> wf_sys (step SCX_SLICE_DFL s e).
Proof.
  intros [Hg Ht]. unfold step.
  destruct (sys_tasks s !! event_task e) as [p |] eqn:Hp; [| split; assumption].
  pose proof (map_Forall_lookup_1 _ _ _ _ Ht Hp) as Hwf. simpl in Hwf.
  assert (Hdfl : is_u64 SCX_SLICE_DFL).
  { pose proof slice_range. unfold is_u64.
    assert (2 ^ 56 < 2 ^ 64) by (vm_compute; reflexivity). lia. }
  destruct e as [t a | t f a | t | t r | t ns nw]; simpl in *.
  - split; [| exact Ht]. unfold cxl_init_task.
    destruct (bpf_task_storage_get _ _ _ _) as [[c |] stor]; exact Hg.
  - unfold cxl_enqueue.
    destruct (bpf_task_storage_get _ _ _ _) as [[c |] stor]; simpl.
    + split; [exact Hg |]. apply map_Forall_insert_2; [| exact Ht].
      pose proof (wf_insert_slice SCX_SLICE_DFL p Hdfl Hwf) as (_ & Hs & Hw).
      repeat split; simpl; try (apply Hs || apply Hw).
      all: apply wf_enqueue_vtime, Hwf.
    + split; [exact Hg |]. apply map_Forall_insert_2; [| exact Ht].
      apply wf_insert_slice; assumption.
  - split; [| exact Ht]. unfold cxl_running.
    destruct (vtime_before _ _); [apply Hwf | exact Hg].
  - split; [exact Hg |]. apply map_Forall_insert_2; [| exact Ht].
    destruct Hwf as (Hv & Hs & Hw). repeat split; simpl; try (apply Hs || apply Hw).
    all: apply wrap64_range.
  - split; [exact Hg |]. apply map_Forall_insert_2; [| exact Ht].
    destruct Hwf as (Hv & Hs & Hw). repeat split; simpl; try apply Hv.
    all: try apply wrap64_range; apply wrap32_range.
Qed.

Lemma wf_run (es : list event) :
  forall s : system, wf_sys s -> wf_sys (run SCX_SLICE_DFL s es).
Proof.
  induction es as [| e es IH]; intros s Hwf; [exact Hwf |].
  apply (IH (step SCX_SLICE_DFL s e)), wf_step, Hwf.
Qed.

Lemma vtime_delta_refl (v : Z) : vtime_delta v v = 0.
Proof. unfold vtime_delta. rewrite Z.sub_diag. reflexivity. Qed.

(** C2. Along any sequence of engine events, one more event changes the
    virtual time of a task as follows.  Measured as the code measures
    differences of virtual times, the change is never negative, except at an
    enqueue of the task on which the VectorDB boost was applied, where it is
    at least minus one slice.  The premises are the ones of the claim and of
    64-bit clocks: a run-stop finds a slice not above the nominal one, and an
    enqueue finds the task's virtual time within [2^62] ticks of the global
    clock.  In particular the clamp of the enqueue never lowers a virtual
    time, and the charge of a run-stop is the exact, non-negative quotient
    [(SCX_SLICE_DFL - slice) * 100 / weight] when the slice is not above the
    nominal one. *)
Theorem vtime_never_decreases_except_boost
    (s0 : system) (es : list event) (e : event) (t : Z) (p : task_struct) :
  wf_sys s0 ->
  let s := run SCX_SLICE_DFL s0 es in
  let s' := step SCX_SLICE_DFL s e in
  sys_tasks s !! t = Some p ->
  (forall r, e = ev_stopping t r -> slice p <= SCX_SLICE_DFL) ->
  (forall f a, e = ev_enqueue t f a -> near (global_vtime (sys_sched s)) (dsq_vtime p)) ->
  (exists p' : task_struct,
      sys_tasks s' !! t = Some p'
      /\ (0 <= vtime_delta (dsq_vtime p) (dsq_vtime p')
          \/ (boosted_enqueue e t s'
              /\ - SCX_SLICE_DFL <= vtime_delta (dsq_vtime p) (dsq_vtime p'))))
  /\ (forall g cur : Z, vtime_le cur (vtime_max cur (wrap64 (g - SCX_SLICE_DFL))))
  /\ (forall (q : task_struct) (r : bool),
        wf_task q -> slice q <= SCX_SLICE_DFL ->
        stopping_charge SCX_SLICE_DFL q = (SCX_SLICE_DFL - slice q) * 100 / weight q
        /\ 0 <= stopping_charge SCX_SLICE_DFL q
        /\ dsq_vtime (cxl_stopping SCX_SLICE_DFL q r)
           = wrap64 (dsq_vtime q + stopping_charge SCX_SLICE_DFL q)
        /\ 0 <= vtime_delta (dsq_vtime q) (dsq_vtime (cxl_stopping SCX_SLICE_DFL q r))).
Proof.
  intros Hwf0 s s' Hp Hstop Hnear.
  assert (Hcharge : forall q, wf_task q -> slice q <= SCX_SLICE_DFL ->
            vtime_delta (dsq_vtime q)
              (wrap64 (dsq_vtime q + stopping_charge SCX_SLICE_DFL q))
            = stopping_charge SCX_SLICE_DFL q).
  { intros q Hq Hle. apply delta_of_advance.
    destruct (stopping_charge_exact q Hq Hle) as [_ Hb].
    pose proof slice_range. pow_consts. lia. }
  split; [| split].
  - pose proof (wf_run es s0 Hwf0) as [Hg Htasks]. fold s in Hg, Htasks.
    pose proof (map_Forall_lookup_1 _ _ _ _ Htasks Hp) as Hwfp. simpl in Hwfp.
    subst s'. unfold step.
    destruct (sys_tasks s !! event_task e) as [q |] eqn:Hq.
    2:{ exists p. split; [exact Hp |]. left. rewrite vtime_delta_refl. lia. }
    destruct e as [t0 a | t0 f a | t0 | t0 r | t0 ns nw]; simpl in *.
    + exists p. split; [exact Hp |]. left. rewrite vtime_delta_refl. lia.
    + destruct (Z.eq_dec t0 t) as [-> | Hne].
      * rewrite Hp in Hq. injection Hq as <-.
        unfold cxl_enqueue.
        destruct (bpf_task_storage_get (task_ctx_stor (sys_sched s)) t true a)
          as [[c |] stor] eqn:E; simpl.
        -- eexists. split; [apply lookup_insert_eq |]. simpl.
           destruct (enqueue_vtime_delta (global_vtime (sys_sched s))
                       (init_task_type c p) (dsq_vtime p)) as [Hlow Hpos];
             [apply Hwfp | apply (Hnear f a); reflexivity |].
           destruct (is_vectordb (init_task_type c p)) eqn:Ev.
           ++ right. split; [| exact Hlow].
              exists f, a, (init_task_type c p). split; [reflexivity |].
              split; [apply lookup_insert_eq | exact Ev].
           ++ left. apply Hpos. reflexivity.
        -- eexists. split; [apply lookup_insert_eq |]. left.
           rewrite insert_slice_vtime, vtime_delta_refl. lia.
      * exists p. split.
        -- destruct (cxl_enqueue SCX_SLICE_DFL (sys_sched s) t0 q f a) as [st1 p1].
           simpl. rewrite lookup_insert_ne by exact Hne. exact Hp.
        -- left. rewrite vtime_delta_refl. lia.
    + exists p. split; [exact Hp |]. left. rewrite vtime_delta_refl. lia.
    + destruct (Z.eq_dec t0 t) as [-> | Hne].
      * rewrite Hp in Hq. injection Hq as <-.
        eexists. split; [apply lookup_insert_eq |]. left. simpl.
        rewrite Hcharge; [| exact Hwfp | apply (Hstop r); reflexivity].
        apply (stopping_charge_exact p Hwfp). apply (Hstop r). reflexivity.
      * exists p. split; [rewrite lookup_insert_ne by exact Hne; exact Hp |].
        left. rewrite vtime_delta_refl. lia.
    + destruct (Z.eq_dec t0 t) as [-> | Hne].
      * rewrite Hp in Hq. injection Hq as <-.
        eexists. split; [apply lookup_insert_eq |]. left. simpl.
        rewrite vtime_delta_refl. lia.
      * exists p. split; [rewrite lookup_insert_ne by exact Hne; exact Hp |].
        left. rewrite vtime_delta_refl. lia.
  - apply clamp_never_lowers.
  - intros q r Hq Hle.
    destruct (stopping_charge_exact q Hq Hle) as [Heq Hb].
    split; [exact Heq |]. split; [lia |]. split; [reflexivity |].
    simpl. rewrite Hcharge by assumption. lia.
Qed.

End MinimalFacts.

(** ** The access-pattern tracker *)

Section TrackerFacts.

Import Pmu.

(** The classification reads the two byte counters only. *)
Lemma classify_counters (a b : memory_access_pattern) :
  read_bytes a = read_bytes b -> write_bytes a = write_bytes b ->
  classify_io_pattern (Some a) = classify_io_pattern (Some b).
Proof.
  intros Hr Hw. unfold classify_io_pattern, read_ratio, total_bytes.
  rewrite Hr, Hw. reflexivity.
Qed.

(** Without overflow the divisor is the sum of the counters and the
    truncated percentage decides. *)
Lemma classify_percent (pat : memory_access_pattern) :
  0 <= read_bytes pat -> 0 <= write_bytes pat ->
  read_bytes pat * 100 < 2 ^ 64 -> read_bytes pat + write_bytes pat < 2 ^ 64 ->
  classify_io_pattern (Some pat) = percent_io_pattern (read_bytes pat) (write_bytes pat).
Proof.
  intros Hr Hw Hr100 Hsum.
  unfold classify_io_pattern, percent_io_pattern, read_ratio, total_bytes.
  set (r := read_bytes pat) in *. set (w := write_bytes pat) in *.
  destruct ((r =? 0) && (w =? 0)) eqn:Hz; [reflexivity |].
  assert (Hpos : 0 < r + w).
  { apply andb_false_iff in Hz. destruct Hz as [Hz | Hz]; apply Z.eqb_neq in Hz; lia. }
  rewrite (wrap64_small (r + w)) by lia.
  rewrite (wrap64_small (r * 100)) by lia.
  assert (Hq : 0 <= r * 100 / (r + w) <= 100).
  { split; [apply Z.div_pos; lia |].
    apply Z.div_le_upper_bound; [lia |]. nia. }
  rewrite wrap32_small by (pow_consts; lia).
  assert (H81 : 80 < r * 100 / (r + w) <-> 81 * (r + w) <= 100 * r).
  { split; intros H.
    - assert (81 <= r * 100 / (r + w)) by lia.
      pose proof (Z.mul_div_le (r * 100) (r + w) Hpos). nia.
    - assert (81 <= r * 100 / (r + w)); [| lia].
      apply Z.div_le_lower_bound; lia. }
  assert (H20 : r * 100 / (r + w) < 20 <-> 100 * r < 20 * (r + w)).
  { split; intros H.
    - pose proof (Z.mul_succ_div_gt (r * 100) (r + w) Hpos). nia.
    - apply Z.div_lt_upper_bound; lia. }
  destruct (Z.ltb_spec 80 (r * 100 / (r + w))) as [Ha | Ha];
    destruct (Z.leb_spec (81 * (r + w)) (100 * r)) as [Hb | Hb]; try lia; try reflexivity.
  destruct (Z.ltb_spec (r * 100 / (r + w)) 20) as [Hc | Hc];
    destruct (Z.ltb_spec (100 * r) (20 * (r + w))) as [Hd | Hd]; try lia; reflexivity.
Qed.

Lemma tracked_new (current_time : Z) : tracked (new_pattern current_time).
Proof. unfold tracked, is_u64. simpl. pow_consts. repeat split; lia. Qed.

Lemma estimate_io_tracked (pat : memory_access_pattern) (p : task_struct) :
  is_u64 (sum_exec_runtime p) ->
  (0 <= read_bytes pat /\ 0 <= write_bytes pat /\ is_u64 (total_access_time pat)
   /\ read_bytes pat * 1000 + write_bytes pat * 2000 <= total_access_time pat) ->
  let pat' := fst (estimate_io pat p) in
  0 <= read_bytes pat' /\ 0 <= write_bytes pat' /\ is_u64 (total_access_time pat')
  /\ read_bytes pat' * 1000 + write_bytes pat' * 2000 <= total_access_time pat'.
Proof.
  intros Hsum (Hr & Hw & Ht & Hinv). unfold estimate_io, is_u64 in *.
  destruct (mm p); [| simpl; auto].
  simpl.
  destruct (Z.ltb_spec (total_access_time pat) (sum_exec_runtime p)) as [Hlt | Hge];
    [| simpl; auto].
  set (d := sum_exec_runtime p - total_access_time pat).
  assert (Hd : wrap64 d = d) by (apply wrap64_small; subst d; lia).
  rewrite Hd.
  assert (Hd1 : 0 <= d / 1000 /\ d / 1000 * 1000 <= d).
  { split; [apply Z.div_pos; subst d; lia |].
    pose proof (Z.mul_div_le d 1000). lia. }
  assert (Hd2 : 0 <= d / 2000 /\ d / 2000 * 2000 <= d).
  { split; [apply Z.div_pos; subst d; lia |].
    pose proof (Z.mul_div_le d 2000). lia. }
  destruct (wrap64 (nr_accesses pat * 1000) <? d); simpl.
  - rewrite wrap64_small by (subst d; pow_consts; lia). subst d. lia.
  - rewrite wrap64_small by (subst d; pow_consts; lia). subst d. lia.
Qed.

Lemma adjust_locality_counters (d : Z) (pat : memory_access_pattern) :
  read_bytes (adjust_locality d pat) = read_bytes pat
  /\ write_bytes (adjust_locality d pat) = write_bytes pat
  /\ total_access_time (adjust_locality d pat) = total_access_time pat
  /\ pat_io (adjust_locality d pat) = pat_io pat.
Proof. unfold adjust_locality. destruct (_ <? d); simpl; auto. Qed.

Lemma boost_locality_counters (pat : memory_access_pattern) :
  read_bytes (boost_locality pat) = read_bytes pat
  /\ write_bytes (boost_locality pat) = write_bytes pat
  /\ total_access_time (boost_locality pat) = total_access_time pat
  /\ pat_io (boost_locality pat) = pat_io pat.
Proof. unfold boost_locality. destruct (_ || _); simpl; auto. Qed.

Lemma observe_tracked (pat : memory_access_pattern) (p : task_struct) (current_time : Z) :
  is_u64 (sum_exec_runtime p) -> tracked pat -> tracked (observe pat p current_time).
Proof.
  intros Hsum (Hr & Hw & Ht & Hinv & _). unfold observe.
  set (pat1 := set_last_access_time current_time
                 (set_nr_accesses (wrap64 (nr_accesses pat + 1)) pat)).
  pose proof (estimate_io_tracked pat1 p Hsum) as H. simpl in H.
  specialize (H (conj Hr (conj Hw (conj Ht Hinv)))).
  destruct (estimate_io pat1 p) as [pat2 d]. simpl in H.
  destruct H as (Hr2 & Hw2 & Ht2 & Hinv2).
  set (pat3 := set_pat_io (classify_io_pattern (Some pat2)) pat2).
  destruct (adjust_locality_counters d pat3) as (Ea & Eb & Ec & Ed).
  destruct (boost_locality_counters (adjust_locality d pat3)) as (Fa & Fb & Fc & Fd).
  unfold tracked. rewrite Fa, Fb, Fc, Fd, Ea, Eb, Ec, Ed. simpl.
  repeat split; try assumption; try apply Ht2.
  apply classify_counters; rewrite ?Fa, ?Fb, ?Ea, ?Eb; reflexivity.
Qed.

Lemma map_update_Forall (P : memory_access_pattern -> Prop)
    (m : gmap Z memory_access_pattern) (pid : Z) (v : memory_access_pattern) :
  P v -> map_Forall (fun _ x => P x) m ->
  map_Forall (fun _ x => P x) (bpf_map_update_elem m pid v).
Proof.
  intros Hv Hm. unfold bpf_map_update_elem.
  destruct (m !! pid); [apply map_Forall_insert_2; assumption |].
  destruct (_ <? MAX_TASKS); [apply map_Forall_insert_2; assumption | exact Hm].
Qed.

(** An invariant of [observe] that holds of [new_pattern] holds of every
    entry after any sequence of observations. *)
Lemma observe_all_Forall (P : memory_access_pattern -> Prop)
    (Q : observation -> Prop) :
  (forall current_time, P (new_pattern current_time)) ->
  (forall pat o, Q o -> P pat -> P (observe pat (obs_task o) (obs_time o))) ->
  forall (obs : list observation) (m : gmap Z memory_access_pattern),
    Forall Q obs -> map_Forall (fun _ x => P x) m ->
    map_Forall (fun _ x => P x) (observe_all m obs).
Proof.
  intros Hnew Hobs obs. induction obs as [| o obs IH]; intros m HQ Hm; [exact Hm |].
  inversion HQ as [| ? ? Ho HQ']; subst.
  apply IH; [exact HQ' |]. unfold update_damon_data.
  destruct (m !! obs_pid o) as [pat |] eqn:E.
  - destruct (0 <? _); [| exact Hm].
    apply map_update_Forall; [| exact Hm].
    apply Hobs; [exact Ho |]. apply (map_Forall_lookup_1 _ _ _ _ Hm E).
  - apply map_update_Forall; [apply Hnew | exact Hm].
Qed.

Lemma tracked_all (obs : list observation) :
  Forall wf_obs obs -> map_Forall (fun _ x => tracked x) (observe_all ∅ obs).
Proof.
  intros Hobs.
  apply (observe_all_Forall tracked wf_obs); [apply tracked_new | | exact Hobs |].
  - intros pat o (_ & _ & Hsum) Hpat. apply observe_tracked; assumption.
  - apply map_Forall_empty.
Qed.

Lemma tracked_no_overflow (pat : memory_access_pattern) :
  tracked pat ->
  read_bytes pat * 100 < 2 ^ 64 /\ read_bytes pat + write_bytes pat < 2 ^ 64.
Proof. unfold tracked, is_u64. pow_consts. lia. Qed.

(** C5, as amended.  After any sequence of observations the stored
    [io_pattern] of every entry is the classification of the entry's current
    byte counters, and that classification is decided by the truncated
    integer percentage [100 * read / (read + write)]: Unknown without any
    byte, ReadHeavy when the percentage is above 80 (a read share of at
    least 81%), WriteHeavy when the read share is below 20%, Mixed
    otherwise.  Classifying again after storing the result changes
    nothing. *)
Theorem stored_io_pattern_is_percent_classification
    (obs : list observation) (pid : Z) (pat : memory_access_pattern) :
  Forall wf_obs obs ->
  observe_all ∅ obs !! pid = Some pat ->
  pat_io pat = classify_io_pattern (Some pat)
  /\ classify_io_pattern (Some pat)
     = percent_io_pattern (read_bytes pat) (write_bytes pat)
  /\ classify_io_pattern (Some (set_pat_io (classify_io_pattern (Some pat)) pat))
     = classify_io_pattern (Some pat).
Proof.
  intros Hobs Hpat.
  pose proof (map_Forall_lookup_1 _ _ _ _ (tracked_all obs Hobs) Hpat) as Ht.
  simpl in Ht. pose proof (tracked_no_overflow pat Ht) as [H100 Hsum].
  destruct Ht as (Hr & Hw & _ & _ & Hio).
  split; [exact Hio |]. split; [apply classify_percent; assumption |].
  apply classify_counters; reflexivity.
Qed.

(** C5 as stated fails: a read share of 80.5% exceeds 80%, and the code
    classifies it as Mixed, because the percentage is truncated to 80 before
    it is compared. *)
Lemma read_share_above_80_is_mixed :
  let pat := mk_pattern 0 0 0 0 0 0 50 0 805 195 IO_PATTERN_UNKNOWN in
  80 * (read_bytes pat + write_bytes pat) < 100 * read_bytes pat
  /\ read_ratio pat = 80
  /\ classify_io_pattern (Some pat) = IO_PATTERN_MIXED
  /\ spec_io_pattern (read_bytes pat) (write_bytes pat) = IO_PATTERN_READ_HEAVY
  /\ classify_io_pattern (Some pat)
     <> spec_io_pattern (read_bytes pat) (write_bytes pat).
Proof.
  simpl. split; [lia |]. split; [reflexivity |]. split; [reflexivity |].
  split; [reflexivity |]. vm_compute. discriminate.
Qed.

(** The same on an entry the tracker has built: 17 bytes read and 4 written
    are a read share of 80.95%, stored as Mixed. *)
Example stored_read_share_above_80_is_mixed :
  (fun pat => (Pmu.read_bytes pat, Pmu.write_bytes pat, Pmu.pat_io pat))
    <$> (observe_all ∅ Samples.mixed_observations !! 1)
  = Some (17, 4, IO_PATTERN_MIXED)
  /\ 80 * (17 + 4) < 100 * 17.
Proof. split; [vm_compute; reflexivity | lia]. Qed.

(** C10. The classification is Unknown for a missing pattern and for a
    pattern without any byte.  In every other case, the only one in which
    [read_ratio] is evaluated, the sum of the two counters is positive, and
    the divisor [total_bytes] is that sum unless the 64-bit addition
    overflows; on every entry the tracker holds after any sequence of
    observations it does not overflow, so the divisor is positive there. *)
Theorem classification_is_division_safe
    (pat : memory_access_pattern) (obs : list observation) (pid : Z)
    (stored : memory_access_pattern) :
  classify_io_pattern None = IO_PATTERN_UNKNOWN
  /\ (read_bytes pat = 0 -> write_bytes pat = 0 ->
      classify_io_pattern (Some pat) = IO_PATTERN_UNKNOWN)
  /\ (is_u64 (read_bytes pat) -> is_u64 (write_bytes pat) ->
      (read_bytes pat =? 0) && (write_bytes pat =? 0) = false ->
      0 < read_bytes pat + write_bytes pat
      /\ (read_bytes pat + write_bytes pat < 2 ^ 64 ->
          total_bytes pat = read_bytes pat + write_bytes pat /\ 0 < total_bytes pat))
  /\ (Forall wf_obs obs -> observe_all ∅ obs !! pid = Some stored ->
      (read_bytes stored =? 0) && (write_bytes stored =? 0) = false ->
      total_bytes stored = read_bytes stored + write_bytes stored
      /\ 0 < total_bytes stored).
Proof.
  assert (Hpos : forall r w, 0 <= r -> 0 <= w -> (r =? 0) && (w =? 0) = false -> 0 < r + w).
  { intros r w Hr Hw Hz. apply andb_false_iff in Hz.
    destruct Hz as [Hz | Hz]; apply Z.eqb_neq in Hz; lia. }
  split; [reflexivity |]. split; [| split].
  - intros Hr Hw. unfold classify_io_pattern. rewrite Hr, Hw. reflexivity.
  - intros [Hr _] [Hw _] Hz. pose proof (Hpos _ _ Hr Hw Hz) as Hp.
    split; [exact Hp |]. intros Hsum. unfold total_bytes.
    rewrite wrap64_small by lia. split; [reflexivity | exact Hp].
  - intros Hobs Hst Hz.
    pose proof (map_Forall_lookup_1 _ _ _ _ (tracked_all obs Hobs) Hst) as Ht.
    simpl in Ht. pose proof (tracked_no_overflow stored Ht) as [_ Hsum].
    destruct Ht as (Hr & Hw & _). pose proof (Hpos _ _ Hr Hw Hz) as Hp.
    unfold total_bytes. rewrite wrap64_small by lia. split; [reflexivity | exact Hp].
Qed.

Lemma estimate_io_locality (pat : memory_access_pattern) (p : task_struct) :
  locality_score (fst (estimate_io pat p)) = locality_score pat.
Proof.
  unfold estimate_io. destruct (mm p); [| reflexivity]. simpl.
  destruct (_ <? sum_exec_runtime p); [| reflexivity]. simpl.
  destruct (_ <? _); reflexivity.
Qed.

Lemma adjust_locality_range (d : Z) (pat : memory_access_pattern) :
  0 <= locality_score pat <= 100 ->
  0 <= locality_score (adjust_locality d pat) <= 100.
Proof.
  intros H. unfold adjust_locality. destruct (_ <? d); simpl.
  - destruct (Z.ltb_spec 10 (locality_score pat)); [| lia].
    rewrite wrap32_small by (pow_consts; lia). lia.
  - destruct (Z.ltb_spec (locality_score pat) 90); [| lia].
    rewrite wrap32_small by (pow_consts; lia). lia.
Qed.

Lemma boost_locality_range (pat : memory_access_pattern) :
  0 <= locality_score pat <= 100 ->
  0 <= locality_score (boost_locality pat) <= 100.
Proof.
  intros H. unfold boost_locality. destruct (_ || _); simpl; [| exact H].
  destruct (Z.ltb_spec (locality_score pat) 95); [| lia].
  rewrite wrap32_small by (pow_consts; lia). lia.
Qed.

Lemma observe_locality_range (pat : memory_access_pattern) (p : task_struct)
    (current_time : Z) :
  0 <= locality_score pat <= 100 ->
  0 <= locality_score (observe pat p current_time) <= 100.
Proof.
  intros H. unfold observe.
  set (pat1 := set_last_access_time current_time
                 (set_nr_accesses (wrap64 (nr_accesses pat + 1)) pat)).
  pose proof (estimate_io_locality pat1 p) as E.
  destruct (estimate_io pat1 p) as [pat2 d]. simpl in E.
  apply boost_locality_range, adjust_locality_range. simpl. rewrite E. exact H.
Qed.

(** C8. The first observation of a task stores the score 50, and after any
    sequence of observations the score of every entry is within [0, 100]. *)
Theorem locality_score_stays_in_range
    (obs : list observation) (pid : Z) (pat : memory_access_pattern)
    (m : gmap Z memory_access_pattern) (p : task_struct) (current_time : Z)
    (first : memory_access_pattern) :
  (observe_all ∅ obs !! pid = Some pat -> 0 <= locality_score pat <= 100)
  /\ (m !! pid = None ->
      update_damon_data m pid p current_time !! pid = Some first ->
      locality_score first = 50).
Proof.
  split.
  - intros Hpat.
    assert (H : map_Forall (fun _ x => 0 <= locality_score x <= 100) (observe_all ∅ obs)).
    { apply (observe_all_Forall (fun x => 0 <= locality_score x <= 100) (fun _ => True)).
      - intros ?. simpl. lia.
      - intros pat0 o _ H0. apply observe_locality_range. exact H0.
      - apply Forall_true. auto.
      - apply map_Forall_empty. }
    apply (map_Forall_lookup_1 _ _ _ _ H Hpat).
  - intros Hnone. unfold update_damon_data, bpf_map_update_elem. rewrite Hnone.
    destruct (_ <? MAX_TASKS).
    + rewrite lookup_insert_eq. intros [= <-]. reflexivity.
    + rewrite Hnone. discriminate.
Qed.

(** What the first adjustment of the score does on a calm observation:
    from 90 to 94 it stores 100, not the score plus 5. *)
Lemma calm_adjustment_from_90 (d : Z) (pat : memory_access_pattern) :
  (wrap64 (nr_accesses pat * 500) <? d) = false ->
  90 <= locality_score pat <= 94 ->
  locality_score (adjust_locality d pat) = 100
  /\ locality_score (adjust_locality d pat) <> locality_score pat + 5.
Proof.
  intros Hcalm H. unfold adjust_locality. rewrite Hcalm. simpl.
  destruct (Z.ltb_spec (locality_score pat) 90); lia.
Qed.

(** C7, the code at the failing input.  Task 1 is observed ten times, calmly
    ([exec_delta] is 0) and with the pattern Unknown throughout.  After the
    ninth observation its score is 90; the tenth stores 100: the score went
    up by 10, where an increase by 5 with ceiling 100 gives 95. *)
Theorem calm_observation_at_90_stores_100 :
  locality_score <$> (observe_all ∅ (calm_observations 9) !! 1) = Some 90
  /\ pat_io <$> (observe_all ∅ (calm_observations 10) !! 1) = Some IO_PATTERN_UNKNOWN
  /\ locality_score <$> (observe_all ∅ (calm_observations 10) !! 1) = Some 100
  /\ Z.min (90 + 5) 100 = 95.
Proof. vm_compute. repeat split; reflexivity. Qed.

End TrackerFacts.

(** ** Priority table, telemetry and the callbacks of "cxl_pmu" *)

Section PmuFacts.

Import Pmu.

(** C6. A pattern with 900 bytes read and 100 written is classified
    ReadHeavy (the read percentage is 90).  For a ReadIntensive task with
    that pattern stored and a read bandwidth of 80 the table yields
    120 - 15 - 10 = 95, and 95 is the computed priority when no temporary
    boost is pending. *)
Theorem read_intensive_scenario_priority
    (tctx : task_ctx) (pat : memory_access_pattern) (metrics : cxl_pmu_metrics) :
  ctx_type tctx = TASK_TYPE_READ_INTENSIVE ->
  read_bytes pat = 900 -> write_bytes pat = 100 ->
  pat_io pat = classify_io_pattern (Some pat) ->
  read_bandwidth metrics = 80 ->
  read_ratio pat = 90
  /\ classify_io_pattern (Some pat) = IO_PATTERN_READ_HEAVY
  /\ type_adjusted_priority tctx (Some pat) (Some metrics) = 120 - 15 - 10
  /\ (priority_boost tctx = 0 ->
      fst (calculate_task_priority tctx (Some pat) (Some metrics)) = 95).
Proof.
  intros Hty Hr Hw Hio Hbw.
  assert (Hratio : read_ratio pat = 90).
  { unfold read_ratio, total_bytes. rewrite Hr, Hw. reflexivity. }
  assert (Hcls : classify_io_pattern (Some pat) = IO_PATTERN_READ_HEAVY).
  { unfold classify_io_pattern. rewrite Hratio, Hr, Hw. reflexivity. }
  assert (Htab : type_adjusted_priority tctx (Some pat) (Some metrics) = 95).
  { unfold type_adjusted_priority. rewrite Hty. simpl.
    rewrite Hbw, Hio, Hcls. reflexivity. }
  split; [exact Hratio |]. split; [exact Hcls |]. split; [exact Htab |].
  intros Hboost. unfold calculate_task_priority, apply_priority_boost.
  rewrite Hboost, Htab. reflexivity.
Qed.

Lemma lookup_cpu_ctx_insert (cpu_contexts : list cpu_ctx) (cpu_id : Z) (ctx new : cpu_ctx) :
  lookup_cpu_ctx cpu_contexts cpu_id = Some ctx ->
  lookup_cpu_ctx (<[Z.to_nat cpu_id := new]> cpu_contexts) cpu_id = Some new.
Proof.
  unfold lookup_cpu_ctx. destruct ((0 <=? cpu_id) && (cpu_id <? MAX_CPUS)); [| discriminate].
  intros H. apply list_lookup_insert_eq. apply lookup_lt_Some in H. exact H.
Qed.

(** C9. A telemetry refresh of a CPU that has a context stores a total
    bandwidth between 800 and 1199 and splits it 60/40 (integer division);
    the side with strictly more active tasks gets 100 more and is the only
    one flagged as optimized, and no side is flagged when the counts are
    equal.  With 5 active readers and 1 active writer the context is
    read-optimized, not write-optimized, and its read bandwidth is 60% of
    the total plus 100. *)
Theorem refresh_splits_and_rebalances_bandwidth
    (cpu_contexts : list cpu_ctx) (cpu_id current_time : Z) (ctx : cpu_ctx) :
  lookup_cpu_ctx cpu_contexts cpu_id = Some ctx ->
  exists ctx' : cpu_ctx,
    lookup_cpu_ctx (update_cxl_pmu_metrics cpu_contexts cpu_id current_time) cpu_id
    = Some ctx'
    /\ active_read_tasks ctx' = active_read_tasks ctx
    /\ active_write_tasks ctx' = active_write_tasks ctx
    /\ let total := memory_bandwidth (cxl_metrics ctx') in
       let reads := active_read_tasks ctx in
       let writes := active_write_tasks ctx in
       800 <= total < 1200
       /\ read_bandwidth (cxl_metrics ctx')
          = total * 60 / 100 + (if writes <? reads then 100 else 0)
       /\ write_bandwidth (cxl_metrics ctx')
          = total * 40 / 100 + (if reads <? writes then 100 else 0)
       /\ is_read_optimized ctx' = (writes <? reads)
       /\ is_write_optimized ctx' = (reads <? writes)
       /\ (reads = writes ->
           is_read_optimized ctx' = false /\ is_write_optimized ctx' = false)
       /\ (reads = 5 -> writes = 1 ->
           is_read_optimized ctx' = true /\ is_write_optimized ctx' = false
           /\ read_bandwidth (cxl_metrics ctx') = total * 60 / 100 + 100).
Proof.
  intros Hctx. exists (refresh_metrics ctx current_time).
  unfold update_cxl_pmu_metrics. rewrite Hctx.
  split; [apply (lookup_cpu_ctx_insert _ _ ctx), Hctx |].
  unfold refresh_metrics.
  set (tf := current_time / 1000000).
  assert (Hm : 0 <= tf mod 400 < 400) by (apply Z.mod_pos_bound; lia).
  assert (Hmb : wrap64 (800 + tf mod 400) = 800 + tf mod 400)
    by (apply wrap64_small; pow_consts; lia).
  rewrite Hmb.
  set (total := 800 + tf mod 400) in *.
  assert (Ht : 800 <= total < 1200) by (subst total; lia).
  assert (H60 : wrap64 (total * 60) = total * 60) by (apply wrap64_small; pow_consts; lia).
  assert (H40 : wrap64 (total * 40) = total * 40) by (apply wrap64_small; pow_consts; lia).
  rewrite H60, H40.
  assert (Hr : 0 <= total * 60 / 100 < 1200).
  { split; [apply Z.div_pos; lia | apply Z.div_lt_upper_bound; lia]. }
  assert (Hw : 0 <= total * 40 / 100 < 1200).
  { split; [apply Z.div_pos; lia | apply Z.div_lt_upper_bound; lia]. }
  destruct (Z.ltb_spec (active_write_tasks ctx) (active_read_tasks ctx)) as [H1 | H1].
  - simpl. rewrite wrap64_small by (pow_consts; lia).
    destruct (Z.ltb_spec (active_read_tasks ctx) (active_write_tasks ctx)); [lia |].
    repeat split; try reflexivity; try lia.
  - destruct (Z.ltb_spec (active_read_tasks ctx) (active_write_tasks ctx)) as [H2 | H2].
    + simpl. rewrite wrap64_small by (pow_consts; lia).
      repeat split; try reflexivity; try lia.
    + simpl. repeat split; try reflexivity; try lia.
Qed.

(** C1, the code at the failing input.  The enqueue of "cxl_pmu" changes no
    queue.  After [cxl_init] and the enqueue of a task, the fallback queue,
    the only queue [cxl_dispatch] serves, is empty and the dispatch finds
    nothing: the task is in no queue. *)
Theorem cxl_pmu_enqueue_inserts_nowhere
    (dsqs : gmap Z (list dsq_entry)) (t : Z) (p : task_struct) (enq_flags : Z) :
  fst (cxl_enqueue dsqs t p enq_flags) = dsqs
  /\ (let queued := fst (cxl_enqueue (fst cxl_init) t p enq_flags) in
      (forall dsq_id, dsq_of queued dsq_id = [])
      /\ snd (cxl_dispatch queued) = None).
Proof.
  split; [reflexivity |]. simpl. split; [| reflexivity].
  intros dsq_id. unfold dsq_of, scx_bpf_create_dsq. simpl.
  destruct (decide (FALLBACK_DSQ_ID = dsq_id)) as [<- | Hne].
  - rewrite lookup_insert_eq. reflexivity.
  - rewrite lookup_insert_ne by exact Hne. rewrite lookup_empty. reflexivity.
Qed.

End PmuFacts.

(** ** The theorems at concrete inputs *)

Section Witnesses.

Import Samples.

Lemma slice_20ms_range : 0 < slice_20ms < 2 ^ 56.
Proof. unfold slice_20ms. pow_consts. lia. Defined.

Lemma vector_system_wf : Minimal.wf_sys vector_system.
Proof.
  split.
  - unfold is_u64. simpl. pow_consts. lia.
  - apply map_Forall_singleton. unfold Minimal.wf_task, is_u64, is_u32. simpl.
    pow_consts. lia.
Defined.

Lemma vtime_never_decreases_except_boost_witness :
  Minimal.wf_sys vector_system
  /\ (Minimal.sys_tasks (Minimal.run slice_20ms vector_system vector_events) !! 1
      = Some vector_task_running)
  /\ slice vector_task_running <= slice_20ms
  /\ exists p' : task_struct,
       Minimal.sys_tasks
         (Minimal.step slice_20ms
            (Minimal.run slice_20ms vector_system vector_events)
            (Minimal.ev_stopping 1 true)) !! 1 = Some p'
       /\ (0 <= Minimal.vtime_delta (dsq_vtime vector_task_running) (dsq_vtime p')
           \/ (Minimal.boosted_enqueue (Minimal.ev_stopping 1 true) 1
                 (Minimal.step slice_20ms
                    (Minimal.run slice_20ms vector_system vector_events)
                    (Minimal.ev_stopping 1 true))
               /\ - slice_20ms
                  <= Minimal.vtime_delta (dsq_vtime vector_task_running) (dsq_vtime p'))).
Proof.
  assert (Hp : (Minimal.sys_tasks (Minimal.run slice_20ms vector_system vector_events) !! 1
      = Some vector_task_running)) by (vm_compute; reflexivity).
  split; [exact vector_system_wf |]. split; [exact Hp |].
  split; [vm_compute; discriminate |].
  refine (proj1 (vtime_never_decreases_except_boost slice_20ms slice_20ms_range
                   vector_system vector_events (Minimal.ev_stopping 1 true) 1
                   vector_task_running vector_system_wf Hp _ _)).
  - intros r _. vm_compute. discriminate.
  - intros f a H. discriminate H.
Defined.

Lemma global_clock_advances_forward_witness :
  (0 <= 100 < 2 ^ 63 /\ 0 <= 250 < 2 ^ 63)
  /\ Minimal.global_vtime (Minimal.cxl_running (Minimal.mk_sched 100 ∅ ∅) (task_at 250))
     = Z.max 100 250
  /\ Minimal.global_vtime (Minimal.run_starts (Minimal.mk_sched 100 ∅ ∅) [task_at 150])
     <= Minimal.global_vtime
          (Minimal.run_starts (Minimal.mk_sched 100 ∅ ∅)
             ([task_at 150] ++ [task_at 250; task_at 120])).
Proof.
  assert (Hg : 0 <= 100 < 2 ^ 63) by (pow_consts; lia).
  assert (Hv : 0 <= 250 < 2 ^ 63) by (pow_consts; lia).
  assert (Hall : Forall (fun q => 0 <= dsq_vtime q < 2 ^ 63)
                   ([task_at 150] ++ [task_at 250; task_at 120])).
  { repeat constructor; simpl; pow_consts; lia. }
  destruct (global_clock_advances_forward slice_20ms (Minimal.mk_sched 100 ∅ ∅)
              (task_at 250) [task_at 150] [task_at 250; task_at 120]
              vector_system vector_events (Minimal.ev_stopping 1 true))
    as (_ & _ & Hone & Hseq).
  split; [exact (conj Hg Hv) |]. split.
  - exact (proj1 (Hone Hg Hv)).
  - exact (proj1 (proj2 (Hseq Hg Hall))).
Defined.

Lemma enqueue_vtime_is_clamped_then_shifted_witness :
  is_u64 (dsq_vtime vector_task_behind)
  /\ - 2 ^ 63 <= dsq_vtime vector_task_behind - (50000000 - slice_20ms) < 2 ^ 63
  /\ exists v : Z,
       dsq_vtime (snd (Minimal.cxl_enqueue slice_20ms sched_at_50ms 1
                         vector_task_behind 0 true)) = v
       /\ v = wrap64 (Z.max 100 (50000000 - slice_20ms) - slice_20ms + 0).
Proof.
  assert (Hu : is_u64 (dsq_vtime vector_task_behind)).
  { unfold is_u64. simpl. pow_consts. lia. }
  assert (Hwin : - 2 ^ 63 <= dsq_vtime vector_task_behind - (50000000 - slice_20ms)
                 < 2 ^ 63).
  { unfold slice_20ms. simpl. pow_consts. lia. }
  split; [exact Hu |]. split; [exact Hwin |].
  destruct (enqueue_vtime_is_clamped_then_shifted slice_20ms sched_at_50ms 1
              vector_task_behind 0 true Hu)
    as (e & _ & _ & v & _ & Hv & _ & _ & Hnum).
  exists v. split; [exact Hv |]. exact (Hnum Hwin).
Defined.

Lemma busy_observations_wf : Forall Pmu.wf_obs busy_observations.
Proof.
  repeat constructor; unfold is_u64; simpl; pow_consts; lia.
Defined.

Lemma stored_io_pattern_is_percent_classification_witness :
  Forall Pmu.wf_obs busy_observations
  /\ Pmu.observe_all ∅ busy_observations !! 7 = Some busy_pattern
  /\ Pmu.pat_io busy_pattern = Pmu.classify_io_pattern (Some busy_pattern)
  /\ Pmu.classify_io_pattern (Some busy_pattern)
     = Pmu.percent_io_pattern (Pmu.read_bytes busy_pattern) (Pmu.write_bytes busy_pattern).
Proof.
  assert (Hst : Pmu.observe_all ∅ busy_observations !! 7 = Some busy_pattern)
    by (vm_compute; reflexivity).
  split; [exact busy_observations_wf |]. split; [exact Hst |].
  destruct (stored_io_pattern_is_percent_classification busy_observations 7 busy_pattern
              busy_observations_wf Hst) as (H1 & H2 & _).
  exact (conj H1 H2).
Defined.

Lemma classification_is_division_safe_witness :
  (Pmu.read_bytes reader_pattern =? 0) && (Pmu.write_bytes reader_pattern =? 0) = false
  /\ 0 < Pmu.total_bytes reader_pattern
  /\ Pmu.observe_all ∅ busy_observations !! 7 = Some busy_pattern
  /\ 0 < Pmu.total_bytes busy_pattern.
Proof.
  assert (Hst : Pmu.observe_all ∅ busy_observations !! 7 = Some busy_pattern)
    by (vm_compute; reflexivity).
  assert (Hr : is_u64 (Pmu.read_bytes reader_pattern))
    by (unfold is_u64; simpl; pow_consts; lia).
  assert (Hw : is_u64 (Pmu.write_bytes reader_pattern))
    by (unfold is_u64; simpl; pow_consts; lia).
  assert (Hsum : Pmu.read_bytes reader_pattern + Pmu.write_bytes reader_pattern < 2 ^ 64)
    by (simpl; pow_consts; lia).
  destruct (classification_is_division_safe reader_pattern busy_observations 7 busy_pattern)
    as (_ & _ & Hdiv & Hreach).
  split; [reflexivity |].
  split; [exact (proj2 (proj2 (Hdiv Hr Hw eq_refl) Hsum)) |].
  split; [exact Hst |].
  exact (proj2 (Hreach busy_observations_wf Hst eq_refl)).
Defined.

Lemma locality_score_stays_in_range_witness :
  Pmu.observe_all ∅ (Pmu.calm_observations 3) !! 1 = Some calm_pattern
  /\ 0 <= Pmu.locality_score calm_pattern <= 100
  /\ Pmu.locality_score (Pmu.new_pattern 0) = 50.
Proof.
  assert (Hst : Pmu.observe_all ∅ (Pmu.calm_observations 3) !! 1 = Some calm_pattern)
    by (vm_compute; reflexivity).
  assert (Hfirst : Pmu.update_damon_data ∅ 1 Pmu.calm_task 0 !! 1
                   = Some (Pmu.new_pattern 0)) by (vm_compute; reflexivity).
  destruct (locality_score_stays_in_range (Pmu.calm_observations 3) 1 calm_pattern
              ∅ Pmu.calm_task 0 (Pmu.new_pattern 0)) as [Hrange Hnew].
  split; [exact Hst |]. split; [exact (Hrange Hst) |].
  exact (Hnew (lookup_empty 1) Hfirst).
Defined.

Lemma read_intensive_scenario_priority_witness :
  Pmu.ctx_type reader_ctx = Pmu.TASK_TYPE_READ_INTENSIVE
  /\ Pmu.priority_boost reader_ctx = 0
  /\ Pmu.classify_io_pattern (Some reader_pattern) = Pmu.IO_PATTERN_READ_HEAVY
  /\ fst (Pmu.calculate_task_priority reader_ctx (Some reader_pattern)
            (Some reader_metrics)) = 95.
Proof.
  destruct (read_intensive_scenario_priority reader_ctx reader_pattern reader_metrics
              eq_refl eq_refl eq_refl eq_refl eq_refl) as (_ & Hcls & _ & Hprio).
  split; [reflexivity |]. split; [reflexivity |]. split; [exact Hcls |].
  exact (Hprio eq_refl).
Defined.

Lemma refresh_splits_and_rebalances_bandwidth_witness :
  Pmu.lookup_cpu_ctx [read_dominated_cpu] 0 = Some read_dominated_cpu
  /\ exists ctx' : Pmu.cpu_ctx,
       Pmu.lookup_cpu_ctx (Pmu.update_cxl_pmu_metrics [read_dominated_cpu] 0 1234567890) 0
       = Some ctx'
       /\ Pmu.is_read_optimized ctx' = true
       /\ Pmu.is_write_optimized ctx' = false
       /\ Pmu.read_bandwidth (Pmu.cxl_metrics ctx')
          = Pmu.memory_bandwidth (Pmu.cxl_metrics ctx') * 60 / 100 + 100.
Proof.
  split; [reflexivity |].
  destruct (refresh_splits_and_rebalances_bandwidth [read_dominated_cpu] 0 1234567890
              read_dominated_cpu eq_refl)
    as (ctx' & Hl & _ & _ & _ & _ & _ & _ & _ & _ & Hscen).
  exists ctx'. split; [exact Hl |]. exact (Hscen eq_refl eq_refl).
Defined.

End Witnesses.

(** * Further properties of the code *)

(** ** The virtual-time scheduler, continued *)

Section MinimalMore.

Import Minimal.

Variable SCX_SLICE_DFL : Z.

Hypothesis slice_range : 0 < SCX_SLICE_DFL < 2 ^ 56.

(** X1. The comparison of virtual times is irreflexive; it is the order of
    the integers whenever the two values are less than [2^63] apart before
    any wrap-around; of two different 64-bit values one is before the other;
    and both are before each other only when they are exactly [2^63]
    apart. *)
Theorem vtime_before_is_a_windowed_order (a b : Z) :
  vtime_before a a = false
  /\ (- 2 ^ 63 <= a - b < 2 ^ 63 -> vtime_before a b = (a <? b))
  /\ (wrap64 a <> wrap64 b -> vtime_before a b = true \/ vtime_before b a = true)
  /\ (vtime_before a b = true -> vtime_before b a = true -> wrap64 (a - b) = 2 ^ 63).
Proof.
  split; [apply vtime_before_irrefl |]. split; [apply vtime_before_lt |].
  unfold vtime_before, to_s64, wrap64. pow_consts.
  split.
  - intros Hne.
    destruct (Z.ltb_spec ((a - b) mod 18446744073709551616) 9223372036854775808);
      destruct (Z.ltb_spec ((b - a) mod 18446744073709551616) 9223372036854775808).
    + exfalso. apply Hne. Z.div_mod_to_equations. lia.
    + right. apply Z.ltb_lt. Z.div_mod_to_equations. lia.
    + left. apply Z.ltb_lt. Z.div_mod_to_equations. lia.
    + left. apply Z.ltb_lt. Z.div_mod_to_equations. lia.
  - intros H1 H2. apply Z.ltb_lt in H1, H2.
    destruct (Z.ltb_spec ((a - b) mod 18446744073709551616) 9223372036854775808);
      destruct (Z.ltb_spec ((b - a) mod 18446744073709551616) 9223372036854775808);
      Z.div_mod_to_equations; lia.
Qed.

(** X2. CPU selection returns the previous CPU and claims nothing, unless the
    task has a context that marks it VectorDB-like and CPU 0 or CPU 1 is both
    in its affinity mask and idle: then it returns the first such CPU (0
    before 1) and claims exactly that CPU.  It never claims a CPU it does not
    return and never returns CPU 0 or 1 on its own account outside the
    mask. *)
Theorem select_cpu_claims_only_what_it_returns
    (st : sched) (t : Z) (cpus_ptr : gset Z) (prev_cpu wake_flags : Z) (idle : gset Z) :
  let eligible cpu := bool_decide (cpu ∈ cpus_ptr) && bool_decide (cpu ∈ idle) in
  let vectordb :=
    match task_ctx_stor st !! t with Some c => is_vectordb c | None => false end in
  cxl_select_cpu st t cpus_ptr prev_cpu wake_flags idle
  = if vectordb && eligible 0 then (0, idle ∖ {[0]})
    else if vectordb && eligible 1 then (1, idle ∖ {[1]})
    else (prev_cpu, idle).
Proof.
  intros eligible vectordb. subst eligible vectordb.
  unfold cxl_select_cpu, bpf_task_storage_get, bpf_cpumask_test_cpu,
    scx_bpf_test_and_clear_cpu_idle.
  destruct (task_ctx_stor st !! t) as [c |]; simpl; [| reflexivity].
  destruct (is_vectordb c); simpl; [| reflexivity].
  destruct (bool_decide (0 ∈ cpus_ptr)), (bool_decide (0 ∈ idle)); simpl;
    try reflexivity;
    destruct (bool_decide (1 ∈ cpus_ptr)), (bool_decide (1 ∈ idle)); reflexivity.
Qed.

Lemma name_gives_one_type (p : task_struct) :
  is_vectordb_task p && is_kworker_task p = false.
Proof.
  unfold is_vectordb_task, is_kworker_task.
  destruct (Ascii.eqb_spec (comm_at p 0) "k") as [-> | Hk]; [reflexivity |].
  simpl. apply andb_false_r.
Qed.

Lemma init_task_type_one_type (c : task_ctx) (p : task_struct) :
  one_type c -> one_type (init_task_type c p).
Proof.
  intros Hc. unfold init_task_type.
  destruct (negb (is_vectordb c) && negb (is_kworker c)); [| exact Hc].
  apply name_gives_one_type.
Qed.

Lemma step_one_type (s : system) (e : event) :
  map_Forall (fun _ c => one_type c) (task_ctx_stor (sys_sched s)) ->
  map_Forall (fun _ c => one_type c) (task_ctx_stor (sys_sched (step SCX_SLICE_DFL s e))).
Proof.
  intros Hs. unfold step.
  destruct (sys_tasks s !! event_task e) as [p |]; [| exact Hs].
  destruct e as [t a | t f a | t | t r | t ns nw]; simpl; try exact Hs.
  - unfold cxl_init_task, bpf_task_storage_get.
    destruct (task_ctx_stor (sys_sched s) !! t) as [c |]; simpl.
    + apply map_Forall_insert_2; [reflexivity | exact Hs].
    + destruct a; simpl; [| exact Hs].
      repeat apply map_Forall_insert_2; try reflexivity. exact Hs.
  - unfold cxl_enqueue, bpf_task_storage_get.
    destruct (task_ctx_stor (sys_sched s) !! t) as [c |] eqn:E; simpl.
    + apply map_Forall_insert_2; [| exact Hs].
      apply init_task_type_one_type. apply (map_Forall_lookup_1 _ _ _ _ Hs E).
    + destruct a; simpl; [| exact Hs].
      apply map_Forall_insert_2.
      * apply init_task_type_one_type. reflexivity.
      * apply map_Forall_insert_2; [reflexivity | exact Hs].
  - unfold cxl_running. destruct (vtime_before _ _); exact Hs.
Qed.

(** X3. A task is never both VectorDB-like and a kernel worker: started with
    contexts that carry at most one type (none at all after [cxl_init]), the
    engine keeps this of every stored context through any sequence of events;
    so the boost and the penalty of an enqueue never meet on one task. *)
Theorem stored_contexts_carry_one_type
    (s : system) (es : list event) (t : Z) (c : task_ctx) :
  map_Forall (fun _ c0 => one_type c0) (task_ctx_stor (sys_sched s)) ->
  task_ctx_stor (sys_sched (run SCX_SLICE_DFL s es)) !! t = Some c ->
  is_vectordb c && is_kworker c = false.
Proof.
  revert s. induction es as [| e es IH]; intros s Hs Hc.
  - apply (map_Forall_lookup_1 _ _ _ _ Hs Hc).
  - apply (IH (step SCX_SLICE_DFL s e)); [apply step_one_type; exact Hs | exact Hc].
Qed.

(** X4. The task type is read from the name once.  An enqueue of a task
    whose context already carries a type leaves the context as it is,
    whatever the task is called by now; an enqueue of a task whose context
    carries none reads both flags from the current name. *)
Theorem task_type_is_read_once
    (st : sched) (t : Z) (p : task_struct) (enq_flags : Z) (alloc_ok : bool)
    (c : task_ctx) :
  task_ctx_stor st !! t = Some c ->
  task_ctx_stor (fst (cxl_enqueue SCX_SLICE_DFL st t p enq_flags alloc_ok)) !! t
  = Some (if is_vectordb c || is_kworker c then c
          else mk_task_ctx (is_vectordb_task p) (is_kworker_task p)).
Proof.
  intros Hc. unfold cxl_enqueue, bpf_task_storage_get. rewrite Hc. simpl.
  rewrite lookup_insert_eq. unfold init_task_type.
  destruct (is_vectordb c), (is_kworker c); reflexivity.
Qed.

(** X5. Where an enqueue puts a task relative to the global clock.  With the
    task's virtual time within [2^62] ticks of the clock, the signed distance
    of the inserted virtual time from the clock is the old distance, raised
    to minus one slice if it was lower, minus one slice for a VectorDB task
    and plus one slice for a kernel worker.  So no task is queued more than
    two slices behind the clock, however long it slept. *)
Theorem enqueue_position_relative_to_clock
    (st : sched) (t : Z) (p : task_struct) (enq_flags : Z) (alloc_ok : bool)
    (tctx : task_ctx) :
  is_u64 (dsq_vtime p) ->
  near (global_vtime st) (dsq_vtime p) ->
  fst (bpf_task_storage_get (task_ctx_stor st) t true alloc_ok) = Some tctx ->
  let g := global_vtime st in
  let p' := snd (cxl_enqueue SCX_SLICE_DFL st t p enq_flags alloc_ok) in
  let tctx' := init_task_type tctx p in
  vtime_delta g (dsq_vtime p')
  = Z.max (vtime_delta g (dsq_vtime p)) (- SCX_SLICE_DFL)
    - (if is_vectordb tctx' then SCX_SLICE_DFL else 0)
    + (if is_kworker tctx' then SCX_SLICE_DFL else 0)
  /\ - 2 * SCX_SLICE_DFL <= vtime_delta g (dsq_vtime p').
Proof.
  intros Hcur Hnear Hget g p' tctx'. subst p'. unfold cxl_enqueue.
  destruct (bpf_task_storage_get (task_ctx_stor st) t true alloc_ok) as [o stor].
  simpl in Hget. subst o. simpl. fold g tctx'.
  rewrite enqueue_vtime_eq by exact Hcur.
  set (cur := dsq_vtime p) in *.
  set (b := if is_vectordb tctx' then SCX_SLICE_DFL else 0).
  set (k := if is_kworker tctx' then SCX_SLICE_DFL else 0).
  pose proof slice_range as Hs. unfold near in Hnear.
  change (vtime_delta g cur) with (to_s64 (cur - g)).
  fold g in Hnear. set (x := to_s64 (cur - g)) in *.
  assert (Hb : 0 <= b <= SCX_SLICE_DFL) by (subst b; destruct (is_vectordb tctx'); lia).
  assert (Hk : 0 <= k <= SCX_SLICE_DFL) by (subst k; destruct (is_kworker tctx'); lia).
  assert (Hx : wrap64 (cur - g) = wrap64 x).
  { subst x. unfold to_s64. destruct (wrap64 (cur - g) <? 2 ^ 63).
    - rewrite wrap64_idem. reflexivity.
    - replace (wrap64 (cur - g) - 2 ^ 64) with (wrap64 (cur - g) + (-1) * 2 ^ 64) by lia.
      rewrite wrap64_shift, wrap64_idem. reflexivity. }
  assert (Hfloor : to_s64 (cur - wrap64 (g - SCX_SLICE_DFL)) = x + SCX_SLICE_DFL).
  { apply to_s64_eq; [pow_consts; lia |].
    unfold wrap64. rewrite Zminus_mod_idemp_r.
    replace (cur - (g - SCX_SLICE_DFL)) with ((cur - g) + SCX_SLICE_DFL) by lia.
    rewrite <- Zplus_mod_idemp_l. fold (wrap64 (cur - g)). rewrite Hx.
    unfold wrap64. rewrite Zplus_mod_idemp_l. reflexivity. }
  assert (Hd : vtime_delta g (wrap64 (vtime_max cur (wrap64 (g - SCX_SLICE_DFL)) - b + k))
               = Z.max x (- SCX_SLICE_DFL) - b + k).
  { unfold vtime_delta. apply to_s64_eq; [pow_consts; lia |].
    rewrite wrap64_sub_l. unfold vtime_max, vtime_before. rewrite Hfloor.
    destruct (Z.ltb_spec (x + SCX_SLICE_DFL) 0).
    - rewrite Z.max_r by lia.
      replace (wrap64 (g - SCX_SLICE_DFL) - b + k - g)
        with (wrap64 (g - SCX_SLICE_DFL) + (k - b - g)) by lia.
      rewrite wrap64_add_l. f_equal. lia.
    - rewrite Z.max_l by lia.
      replace (cur - b + k - g) with ((cur - g) + (k - b)) by lia.
      rewrite <- wrap64_add_l, Hx, wrap64_add_l. f_equal. lia. }
  rewrite Hd. split; [reflexivity | lia].
Qed.

(** X6. The charge of a run-stop, for a task whose remaining slice is not
    above the nominal one: with the default weight 100 it is exactly the part
    of the slice that was used, it is nothing when the whole slice is left,
    and of two tasks that used the same the one with the larger weight is
    charged no more. *)
Theorem stopping_charge_by_weight (p q : task_struct) :
  wf_task p -> slice p <= SCX_SLICE_DFL ->
  (weight p = 100 -> stopping_charge SCX_SLICE_DFL p = SCX_SLICE_DFL - slice p)
  /\ (slice p = SCX_SLICE_DFL -> stopping_charge SCX_SLICE_DFL p = 0)
  /\ (wf_task q -> slice q = slice p -> 0 < weight p <= weight q ->
      stopping_charge SCX_SLICE_DFL q <= stopping_charge SCX_SLICE_DFL p).
Proof.
  intros Hp Hle.
  destruct (stopping_charge_exact SCX_SLICE_DFL slice_range p Hp Hle) as [Hc _].
  split; [| split].
  - intros Hw. rewrite Hc, Hw. apply Z.div_mul. lia.
  - intros Hs. rewrite Hc, Hs, Z.sub_diag. reflexivity.
  - intros Hq Hs Hw.
    destruct (stopping_charge_exact SCX_SLICE_DFL slice_range q Hq) as [Hcq _]; [lia |].
    rewrite Hc, Hcq, Hs. apply Z.div_le_compat_l; [| lia].
    destruct Hp as (_ & [Hs0 _] & _). lia.
Qed.





(** X8. A task whose context could not be allocated at init-task is still
    scheduled.  [cxl_init_task] then returns [-ENOMEM] and leaves the
    scheduler as it was; it returns 0 exactly when the task has a context
    afterwards, which then carries no type.  After the failure an enqueue of
    the task still appends one entry for it to the fallback queue: ordered by
    virtual time if the context can be allocated now, FIFO if not. *)
Theorem failed_init_task_does_not_lose_the_task
    (st : sched) (t : Z) (p : task_struct) (enq_flags : Z) (alloc_ok retry_ok : bool) :
  let st1 := fst (cxl_init_task st t alloc_ok) in
  let rc := snd (cxl_init_task st t alloc_ok) in
  (rc = 0 \/ rc = - ENOMEM)
  /\ (rc = 0 <-> task_ctx_stor st1 !! t = Some (mk_task_ctx false false))
  /\ (rc = - ENOMEM <-> task_ctx_stor st !! t = None /\ alloc_ok = false)
  /\ (rc = - ENOMEM ->
      st1 = st
      /\ exists e : dsq_entry,
           dsqs (fst (cxl_enqueue SCX_SLICE_DFL st1 t p enq_flags retry_ok))
           = <[FALLBACK_DSQ_ID := dsq_of (dsqs st) FALLBACK_DSQ_ID ++ [e]]> (dsqs st)
           /\ ent_task e = t
           /\ (is_Some (ent_vtime e) <-> retry_ok = true)).
Proof.
  intros st1 rc. subst st1 rc. unfold cxl_init_task, bpf_task_storage_get.
  destruct (task_ctx_stor st !! t) as [c |] eqn:Hc; simpl.
  - split; [left; reflexivity |]. split; [| split].
    + split; [intros _; apply lookup_insert_eq | reflexivity].
    + split; [discriminate | intros [H _]; discriminate].
    + discriminate.
  - destruct alloc_ok; simpl.
    + split; [left; reflexivity |]. split; [| split].
      * split; [intros _; apply lookup_insert_eq | reflexivity].
      * split; [discriminate | intros [_ H]; discriminate].
      * discriminate.
    + split; [right; reflexivity |]. split; [| split].
      * split; [discriminate | rewrite Hc; discriminate].
      * split; [auto | reflexivity].
      * intros _. split; [destruct st; simpl in *; reflexivity |].
        unfold cxl_enqueue, bpf_task_storage_get. simpl. rewrite Hc.
        destruct retry_ok; simpl; eexists; (split; [reflexivity |]);
          (split; [reflexivity |]); simpl.
        -- split; [reflexivity | eauto].
        -- split; [intros [? ?]; discriminate | discriminate].
Qed.

Lemma cxl_dispatch_head (st : sched) (e : dsq_entry) (rest : list dsq_entry) :
  dsq_of (dsqs st) FALLBACK_DSQ_ID = e :: rest ->
  cxl_dispatch st
  = (mk_sched (global_vtime st) (task_ctx_stor st) (<[FALLBACK_DSQ_ID := rest]> (dsqs st)),
     Some e).
Proof.
  intros H. unfold cxl_dispatch, scx_bpf_dsq_move_to_local. rewrite H. reflexivity.
Qed.

(** X9. Enqueue and dispatch fit together: a dispatch on an empty fallback
    queue finds nothing and changes nothing; after an enqueue on an empty
    fallback queue the next dispatch hands out the entry of that very task
    and leaves the queue empty again, with the clock and the contexts as the
    enqueue left them. *)
Theorem dispatch_hands_out_what_was_enqueued
    (st : sched) (t : Z) (p : task_struct) (enq_flags : Z) (alloc_ok : bool) :
  dsq_of (dsqs st) FALLBACK_DSQ_ID = [] ->
  cxl_dispatch st = (st, None)
  /\ (let st1 := fst (cxl_enqueue SCX_SLICE_DFL st t p enq_flags alloc_ok) in
      exists e : dsq_entry,
        snd (cxl_dispatch st1) = Some e
        /\ ent_task e = t
        /\ ent_slice e = SCX_SLICE_DFL
        /\ dsq_of (dsqs (fst (cxl_dispatch st1))) FALLBACK_DSQ_ID = []
        /\ global_vtime (fst (cxl_dispatch st1)) = global_vtime st
        /\ task_ctx_stor (fst (cxl_dispatch st1)) = task_ctx_stor st1).
Proof.
  intros Hempty. split.
  - unfold cxl_dispatch, scx_bpf_dsq_move_to_local. rewrite Hempty.
    destruct st; reflexivity.
  - destruct (minimal_enqueue_exactly_one_queue SCX_SLICE_DFL st t p enq_flags alloc_ok)
      as (e & Htask & Hq & _).
    assert (Hslice : ent_slice e = SCX_SLICE_DFL).
    { revert Hq. unfold cxl_enqueue.
      destruct (bpf_task_storage_get (task_ctx_stor st) t true alloc_ok) as [[c |] stor];
        simpl; intros Hq;
        apply (f_equal (fun m => m !! FALLBACK_DSQ_ID)) in Hq;
        rewrite !lookup_insert_eq in Hq; injection Hq as Hq;
        apply app_inv_head in Hq; injection Hq as <-; reflexivity. }
    simpl.
    set (st1 := fst (cxl_enqueue SCX_SLICE_DFL st t p enq_flags alloc_ok)) in *.
    assert (Hhead : dsq_of (dsqs st1) FALLBACK_DSQ_ID = [e]).
    { unfold dsq_of at 1. rewrite Hq, lookup_insert_eq, Hempty. reflexivity. }
    rewrite (cxl_dispatch_head st1 e [] Hhead). simpl.
    exists e. split; [reflexivity |]. split; [exact Htask |]. split; [exact Hslice |].
    split; [unfold dsq_of; rewrite lookup_insert_eq; reflexivity |].
    split; [| reflexivity].
    subst st1. unfold cxl_enqueue.
    destruct (bpf_task_storage_get (task_ctx_stor st) t true alloc_ok) as [[c |] stor];
      reflexivity.
Qed.

End MinimalMore.

(** ** The access-pattern tracker, continued *)

Section TrackerMore.

Import Pmu.

Lemma update_other_pid (m : gmap Z memory_access_pattern) (pid other : Z)
    (p : task_struct) (current_time : Z) :
  pid <> other -> update_damon_data m pid p current_time !! other = m !! other.
Proof.
  intros Hne. unfold update_damon_data, bpf_map_update_elem.
  destruct (m !! pid) as [pat |] eqn:E.
  - destruct (0 <? _); [| reflexivity]. apply lookup_insert_ne, Hne.
  - destruct (_ <? MAX_TASKS); [apply lookup_insert_ne, Hne | reflexivity].
Qed.

Lemma update_keeps_entries (m : gmap Z memory_access_pattern) (pid other : Z)
    (p : task_struct) (current_time : Z) :
  is_Some (m !! other) -> is_Some (update_damon_data m pid p current_time !! other).
Proof.
  intros Hsome. destruct (decide (pid = other)) as [-> | Hne].
  - unfold update_damon_data, bpf_map_update_elem.
    destruct Hsome as [pat E]. rewrite E.
    destruct (0 <? _); [| eauto]. rewrite lookup_insert_eq. eauto.
  - rewrite update_other_pid by exact Hne. exact Hsome.
Qed.

(** X10. The tracker touches the entry of the observed task only and never
    drops an entry: after any sequence of observations a task that was not
    observed has the entry it had, and a task that had an entry still has
    one. *)
Theorem tracker_touches_only_observed_tasks
    (obs : list observation) (m : gmap Z memory_access_pattern) (pid : Z) :
  (Forall (fun o => obs_pid o <> pid) obs -> observe_all m obs !! pid = m !! pid)
  /\ (is_Some (m !! pid) -> is_Some (observe_all m obs !! pid)).
Proof.
  revert m. induction obs as [| o obs IH]; intros m; [split; auto |].
  destruct (IH (update_damon_data m (obs_pid o) (obs_task o) (obs_time o))) as [IH1 IH2].
  split.
  - intros Hall. inversion Hall as [| ? ? Ho Hrest]; subst.
    change (observe_all m (o :: obs))
      with (observe_all (update_damon_data m (obs_pid o) (obs_task o) (obs_time o)) obs).
    rewrite IH1 by exact Hrest. apply update_other_pid, Ho.
  - intros Hsome. apply IH2, update_keeps_entries, Hsome.
Qed.

Lemma map_update_size (m : gmap Z memory_access_pattern) (pid : Z)
    (v : memory_access_pattern) :
  (Z.of_nat (size m) <= MAX_TASKS -> Z.of_nat (size (bpf_map_update_elem m pid v)) <= MAX_TASKS)
  /\ (size m <= size (bpf_map_update_elem m pid v))%nat.
Proof.
  unfold bpf_map_update_elem. destruct (m !! pid) as [old |] eqn:E.
  - rewrite map_size_insert_Some by eauto. split; [auto | lia].
  - destruct (Z.ltb_spec (Z.of_nat (size m)) MAX_TASKS) as [Hlt | Hge].
    + rewrite (map_size_insert_None _ _ _ E). split; [lia | lia].
    + split; [auto | lia].
Qed.

(** X11. The tracker never holds more than [MAX_TASKS] entries: from an
    empty map no sequence of observations gets beyond 8192 entries; and once
    the map is full, the observation of a task without an entry is dropped
    without any change, so that task is not tracked. *)
Theorem tracker_capacity
    (obs : list observation) (m : gmap Z memory_access_pattern) (pid : Z)
    (p : task_struct) (current_time : Z) :
  Z.of_nat (size (observe_all ∅ obs)) <= 8192
  /\ (MAX_TASKS <= Z.of_nat (size m) -> m !! pid = None ->
      update_damon_data m pid p current_time = m).
Proof.
  split.
  - assert (H : forall (l : list observation) (m0 : gmap Z memory_access_pattern),
               Z.of_nat (size m0) <= MAX_TASKS ->
               Z.of_nat (size (observe_all m0 l)) <= MAX_TASKS).
    { induction l as [| o l IH]; intros m0 Hm0; [exact Hm0 |].
      apply IH. unfold update_damon_data.
      destruct (m0 !! obs_pid o) as [pat |].
      - destruct (0 <? _); [| exact Hm0]. apply map_update_size, Hm0.
      - apply map_update_size, Hm0. }
    apply (H obs ∅). rewrite map_size_empty. unfold MAX_TASKS. lia.
  - intros Hfull Hnone. unfold update_damon_data, bpf_map_update_elem.
    rewrite Hnone.
    destruct (Z.ltb_spec (Z.of_nat (size m)) MAX_TASKS); [lia | reflexivity].
Qed.

Lemma adjust_locality_time (d : Z) (pat : memory_access_pattern) :
  last_access_time (adjust_locality d pat) = last_access_time pat.
Proof. unfold adjust_locality. destruct (_ <? d); reflexivity. Qed.

Lemma boost_locality_time (pat : memory_access_pattern) :
  last_access_time (boost_locality pat) = last_access_time pat.
Proof. unfold boost_locality. destruct (_ || _); reflexivity. Qed.

Lemma estimate_io_time (pat : memory_access_pattern) (p : task_struct) :
  last_access_time (fst (estimate_io pat p)) = last_access_time pat.
Proof.
  unfold estimate_io. destruct (mm p); [| reflexivity]. simpl.
  destruct (_ <? sum_exec_runtime p); [| reflexivity]. simpl.
  destruct (_ <? _); reflexivity.
Qed.

Lemma observe_time (pat : memory_access_pattern) (p : task_struct) (current_time : Z) :
  last_access_time (observe pat p current_time) = current_time.
Proof.
  unfold observe.
  set (pat1 := set_last_access_time current_time
                 (set_nr_accesses (wrap64 (nr_accesses pat + 1)) pat)).
  pose proof (estimate_io_time pat1 p) as E.
  destruct (estimate_io pat1 p) as [pat2 d]. simpl in E.
  rewrite boost_locality_time, adjust_locality_time. simpl. exact E.
Qed.

(** X12. Time has to pass between two observations of a task: a second
    observation of the same task at the same timestamp changes nothing,
    whatever the task looks like by then; neither the access count nor the
    score moves. *)
Theorem second_observation_at_same_time_is_ignored
    (m : gmap Z memory_access_pattern) (pid : Z) (p p' : task_struct) (current_time : Z) :
  update_damon_data (update_damon_data m pid p current_time) pid p' current_time
  = update_damon_data m pid p current_time.
Proof.
  assert (Hsame : forall (m1 : gmap Z memory_access_pattern) pat,
            m1 !! pid = Some pat -> last_access_time pat = current_time ->
            update_damon_data m1 pid p' current_time = m1).
  { intros m1 pat E Ht. unfold update_damon_data. rewrite E, Ht, Z.sub_diag.
    reflexivity. }
  destruct (m !! pid) as [pat |] eqn:E.
  - destruct (Z.ltb_spec 0 (wrap64 (current_time - last_access_time pat))) as [Hlt | Hge].
    + assert (Hm1 : update_damon_data m pid p current_time
                    = <[pid := observe pat p current_time]> m).
      { unfold update_damon_data, bpf_map_update_elem. rewrite E.
        destruct (Z.ltb_spec 0 (wrap64 (current_time - last_access_time pat))); [| lia].
        reflexivity. }
      rewrite Hm1. apply (Hsame _ (observe pat p current_time));
        [apply lookup_insert_eq | apply observe_time].
    + assert (Hm1 : update_damon_data m pid p current_time = m).
      { unfold update_damon_data. rewrite E.
        destruct (Z.ltb_spec 0 (wrap64 (current_time - last_access_time pat))); [lia |].
        reflexivity. }
      rewrite Hm1. unfold update_damon_data. rewrite E.
      destruct (Z.ltb_spec 0 (wrap64 (current_time - last_access_time pat))); [lia |].
      reflexivity.
  - destruct (Z.ltb_spec (Z.of_nat (size m)) MAX_TASKS) as [Hlt | Hge].
    + assert (Hm1 : update_damon_data m pid p current_time
                    = <[pid := new_pattern current_time]> m).
      { unfold update_damon_data, bpf_map_update_elem. rewrite E.
        destruct (Z.ltb_spec (Z.of_nat (size m)) MAX_TASKS); [reflexivity | lia]. }
      rewrite Hm1. apply (Hsame _ (new_pattern current_time));
        [apply lookup_insert_eq | reflexivity].
    + assert (Hm1 : forall q, update_damon_data m pid q current_time = m).
      { intros q. unfold update_damon_data, bpf_map_update_elem. rewrite E.
        destruct (Z.ltb_spec (Z.of_nat (size m)) MAX_TASKS); [lia | reflexivity]. }
      rewrite (Hm1 p). apply Hm1.
Qed.

Lemma estimate_io_grows (pat : memory_access_pattern) (p : task_struct) :
  is_u64 (sum_exec_runtime p) ->
  0 <= read_bytes pat -> 0 <= write_bytes pat -> is_u64 (total_access_time pat) ->
  read_bytes pat * 1000 + write_bytes pat * 2000 <= total_access_time pat ->
  let pat' := fst (estimate_io pat p) in
  read_bytes pat <= read_bytes pat' /\ write_bytes pat <= write_bytes pat'
  /\ total_access_time pat <= total_access_time pat'
  /\ (read_bytes pat' = read_bytes pat \/ write_bytes pat' = write_bytes pat).
Proof.
  intros Hsum Hr Hw Ht Hinv. unfold estimate_io, is_u64 in *.
  destruct (mm p); [| simpl; lia]. simpl.
  destruct (Z.ltb_spec (total_access_time pat) (sum_exec_runtime p)) as [Hlt | Hge];
    [| simpl; lia].
  set (d := sum_exec_runtime p - total_access_time pat).
  assert (Hd : wrap64 d = d) by (apply wrap64_small; subst d; lia).
  rewrite Hd.
  assert (Hd1 : 0 <= d / 1000 /\ d / 1000 * 1000 <= d).
  { split; [apply Z.div_pos; subst d; lia |]. pose proof (Z.mul_div_le d 1000). lia. }
  assert (Hd2 : 0 <= d / 2000 /\ d / 2000 * 2000 <= d).
  { split; [apply Z.div_pos; subst d; lia |]. pose proof (Z.mul_div_le d 2000). lia. }
  destruct (wrap64 (nr_accesses pat * 1000) <? d); simpl.
  - rewrite wrap64_small by (subst d; pow_consts; lia). lia.
  - rewrite wrap64_small by (subst d; pow_consts; lia). lia.
Qed.

Lemma observe_grows (pat : memory_access_pattern) (p : task_struct) (current_time : Z) :
  is_u64 (sum_exec_runtime p) -> tracked pat ->
  let pat' := observe pat p current_time in
  read_bytes pat <= read_bytes pat' /\ write_bytes pat <= write_bytes pat'
  /\ total_access_time pat <= total_access_time pat'
  /\ (read_bytes pat' = read_bytes pat \/ write_bytes pat' = write_bytes pat)
  /\ nr_accesses pat' = wrap64 (nr_accesses pat + 1).
Proof.
  intros Hsum (Hr & Hw & Ht & Hinv & _). unfold observe.
  set (pat1 := set_last_access_time current_time
                 (set_nr_accesses (wrap64 (nr_accesses pat + 1)) pat)).
  pose proof (estimate_io_grows pat1 p Hsum Hr Hw Ht Hinv) as H. simpl in H.
  assert (Hnr : nr_accesses (fst (estimate_io pat1 p)) = wrap64 (nr_accesses pat + 1)).
  { unfold estimate_io. destruct (mm p); [| reflexivity]. simpl.
    destruct (_ <? sum_exec_runtime p); [| reflexivity]. simpl.
    destruct (_ <? _); reflexivity. }
  destruct (estimate_io pat1 p) as [pat2 d]. simpl in H, Hnr.
  set (pat3 := set_pat_io (classify_io_pattern (Some pat2)) pat2).
  destruct (adjust_locality_counters d pat3) as (Ea & Eb & Ec & _).
  destruct (boost_locality_counters (adjust_locality d pat3)) as (Fa & Fb & Fc & _).
  simpl. rewrite Fa, Fb, Fc, Ea, Eb, Ec. simpl.
  repeat (split; [apply H |]).
  unfold boost_locality, adjust_locality.
  destruct (_ || _); destruct (_ <? d); exact Hnr.
Qed.

(** X13. The byte counters of an entry only grow.  After any sequence of
    observations, one more observation leaves the read counter, the write
    counter and the accounted runtime of every entry at or above what they
    were, and it never adds to both byte counters at once: a burst of runtime
    is counted either as bytes read or as bytes written. *)
Theorem byte_counters_only_grow
    (obs : list observation) (o : observation) (pid : Z)
    (pat pat' : memory_access_pattern) :
  Forall wf_obs obs -> wf_obs o ->
  observe_all ∅ obs !! pid = Some pat ->
  observe_all ∅ (obs ++ [o]) !! pid = Some pat' ->
  read_bytes pat <= read_bytes pat' /\ write_bytes pat <= write_bytes pat'
  /\ total_access_time pat <= total_access_time pat'
  /\ (read_bytes pat' = read_bytes pat \/ write_bytes pat' = write_bytes pat).
Proof.
  intros Hobs Ho Hpat Hpat'.
  pose proof (map_Forall_lookup_1 _ _ _ _ (tracked_all obs Hobs) Hpat) as Ht.
  simpl in Ht.
  unfold observe_all in Hpat'. rewrite fold_left_app in Hpat'. simpl in Hpat'.
  fold (observe_all ∅ obs) in Hpat'.
  destruct (decide (obs_pid o = pid)) as [Heq | Hne].
  - unfold update_damon_data in Hpat'. rewrite Heq, Hpat in Hpat'.
    destruct (0 <? _).
    + unfold bpf_map_update_elem in Hpat'. rewrite Hpat, lookup_insert_eq in Hpat'.
      injection Hpat' as <-.
      destruct Ho as (_ & _ & Hsum).
      destruct (observe_grows pat (obs_task o) (obs_time o) Hsum Ht)
        as (H1 & H2 & H3 & H4 & _).
      auto.
    + rewrite Hpat in Hpat'. injection Hpat' as <-. lia.
  - rewrite update_other_pid in Hpat' by exact Hne.
    rewrite Hpat in Hpat'. injection Hpat' as <-. lia.
Qed.

(** X14. A task without a memory descriptor is never classified.  If no
    observed task has one, then after any sequence of observations every
    entry has no byte read or written, no accounted runtime, no working-set
    estimate and the pattern Unknown, and its score is between 50 and 100:
    the read/write estimate sits inside the test of [p->mm], together with
    the working-set estimate. *)
Theorem tasks_without_mm_are_never_classified
    (obs : list observation) (pid : Z) (pat : memory_access_pattern) :
  Forall (fun o => mm (obs_task o) = false) obs ->
  observe_all ∅ obs !! pid = Some pat ->
  read_bytes pat = 0 /\ write_bytes pat = 0 /\ total_access_time pat = 0
  /\ working_set_size pat = 0 /\ pat_io pat = IO_PATTERN_UNKNOWN
  /\ 50 <= locality_score pat <= 100.
Proof.
  intros Hobs Hpat.
  set (P := fun x : memory_access_pattern =>
              read_bytes x = 0 /\ write_bytes x = 0 /\ total_access_time x = 0
              /\ working_set_size x = 0 /\ pat_io x = IO_PATTERN_UNKNOWN
              /\ 50 <= locality_score x <= 100).
  assert (H : map_Forall (fun _ x => P x) (observe_all ∅ obs)).
  { apply (observe_all_Forall P (fun o => mm (obs_task o) = false)).
    - intros ?. unfold P. simpl. repeat split; lia.
    - intros x o Hmm (Hr & Hw & Ht & Hws & Hio & Hls).
      unfold P, observe, estimate_io. rewrite Hmm.
      unfold classify_io_pattern, boost_locality, adjust_locality. simpl.
      rewrite Hr, Hw. simpl.
      assert (Hcalm : (wrap64 (wrap64 (nr_accesses x + 1) * 500) <? 0) = false).
      { apply Z.ltb_ge. apply wrap64_range. }
      rewrite Hcalm. simpl.
      repeat (split; [assumption || reflexivity |]).
      destruct (Z.ltb_spec (locality_score x) 90); [| lia].
      rewrite wrap32_small by (pow_consts; lia). lia.
    - exact Hobs.
    - apply map_Forall_empty. }
  apply (map_Forall_lookup_1 _ _ _ _ H Hpat).
Qed.

End TrackerMore.

(** ** Telemetry and priorities, continued *)

Section PmuMore.

Import Pmu.

(** X15. Whatever the clock reads, a refresh stores telemetry inside fixed
    ranges: bandwidth 800..1199, cache hit rate 85..99, latency 100..199,
    utilization 60..99.  The read and write shares add up to the total
    bandwidth, one unit less at most, plus the bonus of 100 when one side
    dominates.  The CPU is marked CXL-attached exactly when the latency is
    above 150, the update time is the current time, and the task counters of
    the CPU are not touched. *)
Theorem refreshed_telemetry_is_in_range (ctx : cpu_ctx) (current_time : Z) :
  let ctx' := refresh_metrics ctx current_time in
  let m := cxl_metrics ctx' in
  800 <= memory_bandwidth m <= 1199
  /\ 85 <= cache_hit_rate m <= 99
  /\ 100 <= memory_latency m <= 199
  /\ 60 <= cxl_utilization m <= 99
  /\ memory_bandwidth m - 1 <= read_bandwidth m + write_bandwidth m
     <= memory_bandwidth m + 100
  /\ (active_read_tasks ctx = active_write_tasks ctx ->
      read_bandwidth m + write_bandwidth m <= memory_bandwidth m)
  /\ is_cxl_attached ctx' = (150 <? memory_latency m)
  /\ last_update_time m = current_time
  /\ (active_moe_tasks ctx', active_kworkers ctx', active_read_tasks ctx',
      active_write_tasks ctx', last_balance_time ctx')
     = (active_moe_tasks ctx, active_kworkers ctx, active_read_tasks ctx,
        active_write_tasks ctx, last_balance_time ctx).
Proof.
  intros ctx' m. subst m ctx'. unfold refresh_metrics.
  set (tf := current_time / 1000000).
  assert (H400 : 0 <= tf mod 400 < 400) by (apply Z.mod_pos_bound; lia).
  assert (H15 : 0 <= tf mod 15 < 15) by (apply Z.mod_pos_bound; lia).
  assert (H100 : 0 <= tf mod 100 < 100) by (apply Z.mod_pos_bound; lia).
  assert (H40 : 0 <= tf mod 40 < 40) by (apply Z.mod_pos_bound; lia).
  rewrite (wrap64_small (800 + tf mod 400)) by (pow_consts; lia).
  rewrite (wrap64_small (85 + tf mod 15)) by (pow_consts; lia).
  rewrite (wrap64_small (100 + tf mod 100)) by (pow_consts; lia).
  rewrite (wrap64_small (60 + tf mod 40)) by (pow_consts; lia).
  set (total := 800 + tf mod 400) in *.
  rewrite (wrap64_small (total * 60)) by (pow_consts; lia).
  rewrite (wrap64_small (total * 40)) by (pow_consts; lia).
  assert (Hr : 0 <= total * 60 / 100 < 1200).
  { split; [apply Z.div_pos; lia | apply Z.div_lt_upper_bound; lia]. }
  assert (Hw : 0 <= total * 40 / 100 < 1200).
  { split; [apply Z.div_pos; lia | apply Z.div_lt_upper_bound; lia]. }
  assert (Hsplit : total - 1 <= total * 60 / 100 + total * 40 / 100 <= total).
  { Z.div_mod_to_equations. lia. }
  destruct (Z.ltb_spec (active_write_tasks ctx) (active_read_tasks ctx));
    [| destruct (Z.ltb_spec (active_read_tasks ctx) (active_write_tasks ctx))];
    simpl; try rewrite wrap64_small by (pow_consts; lia);
    repeat split; try reflexivity; lia.
Qed.

(** X16. A refresh concerns one slot of the context array.  For a CPU number
    outside the array (negative, [MAX_CPUS] or more, or beyond its end) it
    changes nothing; otherwise it stores the refreshed context in the slot of
    that CPU; in both cases the array keeps its length and every other CPU
    keeps its context. *)
Theorem refresh_touches_one_slot
    (cpu_contexts : list cpu_ctx) (cpu_id other current_time : Z) :
  let after := update_cxl_pmu_metrics cpu_contexts cpu_id current_time in
  length after = length cpu_contexts
  /\ (other <> cpu_id -> lookup_cpu_ctx after other = lookup_cpu_ctx cpu_contexts other)
  /\ lookup_cpu_ctx after cpu_id
     = (fun ctx => refresh_metrics ctx current_time) <$> lookup_cpu_ctx cpu_contexts cpu_id
  /\ (cpu_id < 0 \/ MAX_CPUS <= cpu_id \/ Z.of_nat (length cpu_contexts) <= cpu_id ->
      after = cpu_contexts).
Proof.
  intros after. subst after. unfold update_cxl_pmu_metrics.
  destruct (lookup_cpu_ctx cpu_contexts cpu_id) as [ctx |] eqn:E.
  - assert (Hin : 0 <= cpu_id < MAX_CPUS /\ (Z.to_nat cpu_id < length cpu_contexts)%nat).
    { unfold lookup_cpu_ctx in E.
      destruct (Z.leb_spec 0 cpu_id); destruct (Z.ltb_spec cpu_id MAX_CPUS);
        simpl in E; try discriminate.
      split; [lia |]. apply lookup_lt_Some in E. exact E. }
    split; [apply length_insert |]. split; [| split].
    + intros Hne. unfold lookup_cpu_ctx.
      destruct ((0 <=? other) && (other <? MAX_CPUS)) eqn:Hb; [| reflexivity].
      apply andb_true_iff in Hb. destruct Hb as [Hb _]. apply Z.leb_le in Hb.
      apply list_lookup_insert_ne. lia.
    + apply (lookup_cpu_ctx_insert _ _ ctx), E.
    + lia.
  - split; [reflexivity |]. split; [reflexivity |]. split; [exact E |]. reflexivity.
Qed.

Ltac split_ifs :=
  repeat match goal with
    | |- context [if ?c then _ else _] => destruct c
    end.

Lemma table_range (tctx : task_ctx) (pattern : option memory_access_pattern)
    (metrics : option cxl_pmu_metrics) :
  80 <= type_adjusted_priority tctx pattern metrics <= 130.
Proof.
  unfold type_adjusted_priority.
  destruct (ctx_type tctx); try destruct pattern as [pat |]; split_ifs;
    vm_compute; split; discriminate.
Qed.

(** X17. The priority never leaves its range.  The table yields a value
    between 80 and 130 for every context, pattern and telemetry, present or
    missing; the priority returned after the temporary boost is between 1
    and 130 and not above the table value, so the unsigned subtraction never
    wraps around; and the boost left in the context is not above the boost
    that was there. *)
Theorem priority_stays_in_range (tctx : task_ctx)
    (pattern : option memory_access_pattern) (metrics : option cxl_pmu_metrics) :
  let table := type_adjusted_priority tctx pattern metrics in
  let result := calculate_task_priority tctx pattern metrics in
  80 <= table <= 130
  /\ 1 <= fst result <= table
  /\ (0 <= priority_boost tctx ->
      0 <= priority_boost (snd result) <= priority_boost tctx).
Proof.
  intros table result. subst result. pose proof (table_range tctx pattern metrics) as Ht.
  fold table in Ht. unfold calculate_task_priority, apply_priority_boost. fold table.
  split; [exact Ht |].
  destruct (Z.ltb_spec 0 (priority_boost tctx)) as [Hpos | Hzero]; simpl.
  - split.
    + destruct (Z.ltb_spec (priority_boost tctx) table); [| lia].
      rewrite wrap32_small by (pow_consts; lia). lia.
    + intros _. destruct (Z.ltb_spec 5 (priority_boost tctx)); [| lia].
      pose proof (wrap32_range (priority_boost tctx - 5)).
      assert (wrap32 (priority_boost tctx - 5) <= priority_boost tctx - 5);
        [| lia].
      unfold wrap32. apply Z.mod_le; [lia | pow_consts; lia].
  - split; lia.
Qed.

Lemma one_call_boost (tctx : task_ctx) (pattern : option memory_access_pattern)
    (metrics : option cxl_pmu_metrics) :
  is_u32 (priority_boost tctx) ->
  priority_boost (snd (calculate_task_priority tctx pattern metrics))
  = Z.max 0 (priority_boost tctx - 5)
  /\ type_adjusted_priority (snd (calculate_task_priority tctx pattern metrics))
       pattern metrics
     = type_adjusted_priority tctx pattern metrics.
Proof.
  intros Hb. unfold is_u32 in Hb.
  unfold calculate_task_priority, apply_priority_boost.
  destruct (Z.ltb_spec 0 (priority_boost tctx)); simpl.
  - split; [| reflexivity].
    destruct (Z.ltb_spec 5 (priority_boost tctx)); [| lia].
    rewrite wrap32_small by lia. lia.
  - split; [lia | reflexivity].
Qed.

(** X18. The temporary boost wears off.  Each call of
    [calculate_task_priority] lowers a pending boost by 5, down to 0, and
    changes nothing else the table looks at: after [n] calls a boost [b] is
    [max 0 (b - 5 n)], and from the call on at which it has reached 0 the
    function returns the table value and leaves the context alone. *)
Theorem priority_boost_wears_off (n : nat) (tctx : task_ctx)
    (pattern : option memory_access_pattern) (metrics : option cxl_pmu_metrics) :
  is_u32 (priority_boost tctx) ->
  let later := priority_calls n tctx pattern metrics in
  priority_boost later = Z.max 0 (priority_boost tctx - 5 * Z.of_nat n)
  /\ type_adjusted_priority later pattern metrics
     = type_adjusted_priority tctx pattern metrics
  /\ (priority_boost tctx <= 5 * Z.of_nat n ->
      calculate_task_priority later pattern metrics
      = (type_adjusted_priority tctx pattern metrics, later)).
Proof.
  revert tctx. induction n as [| n IH]; intros tctx Hb; simpl.
  - unfold is_u32 in Hb. split; [lia |]. split; [reflexivity |].
    intros Hz. unfold calculate_task_priority, apply_priority_boost.
    destruct (Z.ltb_spec 0 (priority_boost tctx)); [lia | reflexivity].
  - destruct (one_call_boost tctx pattern metrics Hb) as [Hone Htab].
    assert (Hb' : is_u32 (priority_boost (snd (calculate_task_priority tctx pattern metrics)))).
    { unfold is_u32 in *. rewrite Hone. lia. }
    destruct (IH _ Hb') as (IH1 & IH2 & IH3).
    rewrite IH1, IH2, Hone, Htab.
    split; [lia |]. split; [reflexivity |].
    intros Hz. rewrite IH3 by lia. rewrite Htab. reflexivity.
Qed.

(** X19. Missing inputs are neutral and present ones are bounded in effect.
    Without pattern and telemetry (both pointers null) the table value is
    decided by the context alone.  A pattern and telemetry never make the
    priority of a VectorDB, read-intensive, write-intensive, bandwidth-test
    or latency-sensitive task worse (numerically larger) than that; they
    move a kernel worker or a regular task by 0 or +10 only. *)
Theorem missing_inputs_are_neutral (tctx : task_ctx)
    (pattern : option memory_access_pattern) (metrics : option cxl_pmu_metrics) :
  let neutral := type_adjusted_priority tctx None None in
  let table := type_adjusted_priority tctx pattern metrics in
  neutral
  = match ctx_type tctx with
    | TASK_TYPE_LATENCY_SENSITIVE => 95
    | TASK_TYPE_BANDWIDTH_TEST => if is_bandwidth_critical tctx then 90 else 120
    | TASK_TYPE_KWORKER => if needs_promotion tctx then 105 else 120
    | _ => 120
    end
  /\ match ctx_type tctx with
     | TASK_TYPE_KWORKER | TASK_TYPE_UNKNOWN | TASK_TYPE_REGULAR =>
         table = neutral \/ table = neutral + 10
     | _ => neutral - 30 <= table <= neutral
     end.
Proof.
  intros neutral table. subst neutral table. unfold type_adjusted_priority.
  destruct (ctx_type tctx); try destruct pattern as [pat |]; simpl; split_ifs;
    vm_compute; (split; [reflexivity |]);
    first [left; reflexivity | right; reflexivity | split; discriminate].
Qed.

End PmuMore.

(** ** The further properties at concrete inputs *)

Section MoreWitnesses.

Import Samples.

Lemma vtime_before_is_a_windowed_order_witness :
  - 2 ^ 63 <= 100 - 250 < 2 ^ 63
  /\ Minimal.vtime_before 100 250 = (100 <? 250)
  /\ (Minimal.vtime_before 100 250 = true \/ Minimal.vtime_before 250 100 = true).
Proof.
  assert (Hwin : - 2 ^ 63 <= 100 - 250 < 2 ^ 63) by (pow_consts; lia).
  assert (Hne : wrap64 100 <> wrap64 250) by (vm_compute; discriminate).
  destruct (vtime_before_is_a_windowed_order 100 250) as (_ & Hlt & Htot & _).
  split; [exact Hwin |]. split; [exact (Hlt Hwin) | exact (Htot Hne)].
Defined.

Lemma stored_contexts_carry_one_type_witness :
  Minimal.task_ctx_stor
    (Minimal.sys_sched (Minimal.run slice_20ms vector_system vector_events)) !! 1
  = Some (Minimal.mk_task_ctx true false)
  /\ Minimal.is_vectordb (Minimal.mk_task_ctx true false)
     && Minimal.is_kworker (Minimal.mk_task_ctx true false) = false.
Proof.
  assert (Hc : Minimal.task_ctx_stor
                 (Minimal.sys_sched (Minimal.run slice_20ms vector_system vector_events))
               !! 1 = Some (Minimal.mk_task_ctx true false)) by (vm_compute; reflexivity).
  split; [exact Hc |].
  apply (stored_contexts_carry_one_type slice_20ms vector_system vector_events 1
           (Minimal.mk_task_ctx true false)); [apply map_Forall_empty | exact Hc].
Defined.

Lemma task_type_is_read_once_witness :
  Minimal.task_ctx_stor sched_with_vector !! 1 = Some (Minimal.mk_task_ctx true false)
  /\ Minimal.task_ctx_stor
       (fst (Minimal.cxl_enqueue slice_20ms sched_with_vector 1 (task_at 0) 0 true)) !! 1
     = Some (Minimal.mk_task_ctx true false).
Proof.
  assert (Hc : Minimal.task_ctx_stor sched_with_vector !! 1
               = Some (Minimal.mk_task_ctx true false)) by (vm_compute; reflexivity).
  split; [exact Hc |].
  exact (task_type_is_read_once slice_20ms sched_with_vector 1 (task_at 0) 0 true
           (Minimal.mk_task_ctx true false) Hc).
Defined.

Lemma enqueue_position_relative_to_clock_witness :
  is_u64 (dsq_vtime vector_task_behind)
  /\ Minimal.near (Minimal.global_vtime sched_at_50ms) (dsq_vtime vector_task_behind)
  /\ - 2 * slice_20ms
     <= Minimal.vtime_delta (Minimal.global_vtime sched_at_50ms)
          (dsq_vtime (snd (Minimal.cxl_enqueue slice_20ms sched_at_50ms 1
                             vector_task_behind 0 true))).
Proof.
  assert (Hu : is_u64 (dsq_vtime vector_task_behind)).
  { unfold is_u64. simpl. pow_consts. lia. }
  assert (Hnear : Minimal.near (Minimal.global_vtime sched_at_50ms)
                    (dsq_vtime vector_task_behind)).
  { unfold Minimal.near. vm_compute. split; reflexivity. }
  split; [exact Hu |]. split; [exact Hnear |].
  exact (proj2 (enqueue_position_relative_to_clock slice_20ms slice_20ms_range
                  sched_at_50ms 1 vector_task_behind 0 true
                  (Minimal.mk_task_ctx false false) Hu Hnear eq_refl)).
Defined.

Lemma task_of_weight_wf (w : Z) : is_u32 w -> Minimal.wf_task (task_of_weight w).
Proof.
  intros Hw. unfold Minimal.wf_task, is_u64, is_u32 in *. simpl. pow_consts. lia.
Defined.

Lemma stopping_charge_by_weight_witness :
  slice (task_of_weight 100) <= slice_20ms
  /\ Minimal.stopping_charge slice_20ms (task_of_weight 100)
     = slice_20ms - slice (task_of_weight 100)
  /\ Minimal.stopping_charge slice_20ms (task_of_weight 200)
     <= Minimal.stopping_charge slice_20ms (task_of_weight 100).
Proof.
  assert (H100 : is_u32 100) by (unfold is_u32; pow_consts; lia).
  assert (H200 : is_u32 200) by (unfold is_u32; pow_consts; lia).
  assert (Hle : slice (task_of_weight 100) <= slice_20ms) by (vm_compute; discriminate).
  destruct (stopping_charge_by_weight slice_20ms slice_20ms_range
              (task_of_weight 100) (task_of_weight 200) (task_of_weight_wf 100 H100) Hle)
    as (Hdefault & _ & Hanti).
  split; [exact Hle |]. split; [exact (Hdefault eq_refl) |].
  apply (Hanti (task_of_weight_wf 200 H200) eq_refl). unfold task_of_weight. simpl. lia.
Defined.


Lemma failed_init_task_does_not_lose_the_task_witness :
  snd (Minimal.cxl_init_task sched_at_50ms 1 false) = - Minimal.ENOMEM
  /\ fst (Minimal.cxl_init_task sched_at_50ms 1 false) = sched_at_50ms.
Proof.
  assert (Hrc : snd (Minimal.cxl_init_task sched_at_50ms 1 false) = - Minimal.ENOMEM)
    by reflexivity.
  split; [exact Hrc |].
  destruct (failed_init_task_does_not_lose_the_task slice_20ms sched_at_50ms 1
              vector_task_behind 0 false true) as (_ & _ & _ & Hfail).
  exact (proj1 (Hfail Hrc)).
Defined.

Lemma dispatch_hands_out_what_was_enqueued_witness :
  dsq_of (Minimal.dsqs sched_at_50ms) Minimal.FALLBACK_DSQ_ID = []
  /\ Minimal.cxl_dispatch sched_at_50ms = (sched_at_50ms, None).
Proof.
  assert (He : dsq_of (Minimal.dsqs sched_at_50ms) Minimal.FALLBACK_DSQ_ID = [])
    by reflexivity.
  split; [exact He |].
  exact (proj1 (dispatch_hands_out_what_was_enqueued slice_20ms sched_at_50ms 1
                  vector_task_behind 0 true He)).
Defined.

Lemma tracker_touches_only_observed_tasks_witness :
  Forall (fun o => Pmu.obs_pid o <> 3) busy_observations
  /\ Pmu.observe_all {[ 3 := calm_pattern ]} busy_observations !! 3 = Some calm_pattern.
Proof.
  assert (Hall : Forall (fun o => Pmu.obs_pid o <> 3) busy_observations).
  { repeat constructor; discriminate. }
  split; [exact Hall |].
  rewrite (proj1 (tracker_touches_only_observed_tasks busy_observations
                    {[ 3 := calm_pattern ]} 3) Hall).
  apply lookup_singleton_eq.
Defined.

Lemma tracker_capacity_witness :
  Pmu.MAX_TASKS <= Z.of_nat (size full_damon_data)
  /\ full_damon_data !! 9000 = None
  /\ Pmu.update_damon_data full_damon_data 9000 Pmu.calm_task 5 = full_damon_data.
Proof.
  assert (Hfull : Pmu.MAX_TASKS <= Z.of_nat (size full_damon_data))
    by (vm_compute; discriminate).
  assert (Hnone : full_damon_data !! 9000 = None) by (vm_compute; reflexivity).
  split; [exact Hfull |]. split; [exact Hnone |].
  exact (proj2 (tracker_capacity busy_observations full_damon_data 9000 Pmu.calm_task 5)
           Hfull Hnone).
Defined.

Lemma byte_counters_only_grow_witness :
  Pmu.observe_all ∅ (firstn 2 busy_observations) !! 7 = Some busy_pattern_before
  /\ Pmu.observe_all ∅ (firstn 2 busy_observations ++ skipn 2 busy_observations) !! 7
     = Some busy_pattern
  /\ Pmu.read_bytes busy_pattern_before <= Pmu.read_bytes busy_pattern
  /\ Pmu.write_bytes busy_pattern_before <= Pmu.write_bytes busy_pattern.
Proof.
  assert (Hobs : Forall Pmu.wf_obs (firstn 2 busy_observations)).
  { repeat constructor; unfold is_u64; simpl; pow_consts; lia. }
  assert (Ho : Pmu.wf_obs (Pmu.mk_obs 7 (busy_task 1100000) 30)).
  { repeat constructor; unfold is_u64; simpl; pow_consts; lia. }
  assert (H1 : Pmu.observe_all ∅ (firstn 2 busy_observations) !! 7
               = Some busy_pattern_before) by (vm_compute; reflexivity).
  assert (H2 : Pmu.observe_all ∅ (firstn 2 busy_observations
                                    ++ [Pmu.mk_obs 7 (busy_task 1100000) 30]) !! 7
               = Some busy_pattern) by (vm_compute; reflexivity).
  destruct (byte_counters_only_grow (firstn 2 busy_observations)
              (Pmu.mk_obs 7 (busy_task 1100000) 30) 7 busy_pattern_before busy_pattern
              Hobs Ho H1 H2) as (Hr & Hw & _).
  split; [exact H1 |]. split; [exact H2 |]. exact (conj Hr Hw).
Defined.

Lemma tasks_without_mm_are_never_classified_witness :
  Forall (fun o => mm (Pmu.obs_task o) = false) (Pmu.calm_observations 3)
  /\ Pmu.observe_all ∅ (Pmu.calm_observations 3) !! 1 = Some calm_pattern
  /\ Pmu.pat_io calm_pattern = Pmu.IO_PATTERN_UNKNOWN
  /\ 50 <= Pmu.locality_score calm_pattern <= 100.
Proof.
  assert (Hall : Forall (fun o => mm (Pmu.obs_task o) = false) (Pmu.calm_observations 3)).
  { repeat constructor. }
  assert (Hst : Pmu.observe_all ∅ (Pmu.calm_observations 3) !! 1 = Some calm_pattern)
    by (vm_compute; reflexivity).
  destruct (tasks_without_mm_are_never_classified (Pmu.calm_observations 3) 1 calm_pattern
              Hall Hst) as (_ & _ & _ & _ & Hio & Hls).
  split; [exact Hall |]. split; [exact Hst |]. exact (conj Hio Hls).
Defined.

Lemma refreshed_telemetry_is_in_range_witness :
  Pmu.active_read_tasks balanced_cpu = Pmu.active_write_tasks balanced_cpu
  /\ Pmu.read_bandwidth (Pmu.cxl_metrics (Pmu.refresh_metrics balanced_cpu 1234567890))
     + Pmu.write_bandwidth (Pmu.cxl_metrics (Pmu.refresh_metrics balanced_cpu 1234567890))
     <= Pmu.memory_bandwidth (Pmu.cxl_metrics (Pmu.refresh_metrics balanced_cpu 1234567890)).
Proof.
  destruct (refreshed_telemetry_is_in_range balanced_cpu 1234567890)
    as (_ & _ & _ & _ & _ & Heq & _).
  split; [reflexivity | exact (Heq eq_refl)].
Defined.

Lemma refresh_touches_one_slot_witness :
  1 <> 0
  /\ Pmu.lookup_cpu_ctx
       (Pmu.update_cxl_pmu_metrics [read_dominated_cpu; balanced_cpu] 0 1234567890) 1
     = Pmu.lookup_cpu_ctx [read_dominated_cpu; balanced_cpu] 1
  /\ Pmu.update_cxl_pmu_metrics [read_dominated_cpu; balanced_cpu] 5000 1234567890
     = [read_dominated_cpu; balanced_cpu].
Proof.
  assert (Hne : 1 <> 0) by discriminate.
  assert (Hout : 5000 < 0 \/ Pmu.MAX_CPUS <= 5000
                 \/ Z.of_nat (length [read_dominated_cpu; balanced_cpu]) <= 5000).
  { right. left. vm_compute. discriminate. }
  split; [exact Hne |]. split.
  - exact (proj1 (proj2 (refresh_touches_one_slot [read_dominated_cpu; balanced_cpu]
                           0 1 1234567890)) Hne).
  - exact (proj2 (proj2 (proj2 (refresh_touches_one_slot [read_dominated_cpu; balanced_cpu]
                                  5000 1 1234567890))) Hout).
Defined.

Lemma priority_stays_in_range_witness :
  0 <= Pmu.priority_boost boosted_ctx
  /\ 0 <= Pmu.priority_boost
            (snd (Pmu.calculate_task_priority boosted_ctx (Some reader_pattern)
                    (Some reader_metrics)))
     <= Pmu.priority_boost boosted_ctx.
Proof.
  assert (Hb : 0 <= Pmu.priority_boost boosted_ctx) by (vm_compute; discriminate).
  split; [exact Hb |].
  exact (proj2 (proj2 (priority_stays_in_range boosted_ctx (Some reader_pattern)
                         (Some reader_metrics))) Hb).
Defined.

Lemma priority_boost_wears_off_witness :
  is_u32 (Pmu.priority_boost boosted_ctx)
  /\ Pmu.priority_boost boosted_ctx <= 5 * Z.of_nat 3
  /\ fst (Pmu.calculate_task_priority
            (Pmu.priority_calls 3 boosted_ctx (Some reader_pattern) (Some reader_metrics))
            (Some reader_pattern) (Some reader_metrics))
     = Pmu.type_adjusted_priority boosted_ctx (Some reader_pattern) (Some reader_metrics).
Proof.
  assert (Hu : is_u32 (Pmu.priority_boost boosted_ctx)).
  { unfold is_u32. simpl. pow_consts. lia. }
  assert (Hn : Pmu.priority_boost boosted_ctx <= 5 * Z.of_nat 3)
    by (vm_compute; discriminate).
  split; [exact Hu |]. split; [exact Hn |].
  destruct (priority_boost_wears_off 3 boosted_ctx (Some reader_pattern)
              (Some reader_metrics) Hu) as (_ & _ & Hret).
  rewrite (Hret Hn). reflexivity.
Defined.

End MoreWitnesses.
